(** * pytorch-template: the base logger and the trainer's epoch loop

    A shallow embedding of [base/base_logger.py] and [trainer/trainer.py].

    Conventions of the embedding:
    - Python [int] is [Z]; a Python [float] and a numpy [float64] (the
      scalar loss, the metric values, the totals and the averages) are
      IEEE 754 binary64 numbers, here Rocq's primitive [float]: the same
      format, every operation rounded to nearest, ties to even;
    - a Python [dict] is a [gmap];
    - a method that mutates [self] is a computation in a small state and
      exception monad over the record of the object's attributes;
    - calls into collaborators that live outside the repository (model,
      loss, optimizer, chart sink, line logger) are recorded, in call
      order, in a trace of events kept next to the attributes. *)

From stdpp Require Import base numbers list gmap strings fin_maps sorting.
From Stdlib Require Import ZArith QArith Qcanon Lia Sorted.
From Stdlib Require Import Floats.PrimFloat Floats.SpecFloat Floats.FloatOps.

Open Scope Z_scope.

(** ** Python outcomes *)

(** The exception classes that appear below.  [EmptyDataSourceError] is the
    name the specification uses; no statement of the source raises it. *)
Inductive exn : Type :=
| ZeroDivisionError
| TypeError
| ValueError
| NotImplementedError
| EmptyDataSourceError.

#[global] Instance exn_eq_dec : EqDecision exn.
Proof. solve_decision. Defined.

(** A call either returns a value and leaves a state, or raises and leaves
    the state as mutated up to the [raise]. *)
Inductive result (S A : Type) : Type :=
| Ok (a : A) (s : S)
| Err (e : exn) (s : S).
Arguments Ok {S A} a s.
Arguments Err {S A} e s.

(** The state a call leaves, whatever its outcome. *)
Definition final_state {S A} (r : result S A) : S :=
  match r with Ok _ s => s | Err _ s => s end.

Definition M (S A : Type) : Type := S -> result S A.

Definition ret {S A} (a : A) : M S A := fun s => Ok a s.

Definition bind {S A B} (m : M S A) (k : A -> M S B) : M S B :=
  fun s => match m s with
           | Ok a s' => k a s'
           | Err e s' => Err e s'
           end.

Definition raise {S A} (e : exn) : M S A := fun s => Err e s.
Definition gets {S A} (f : S -> A) : M S A := fun s => Ok (f s) s.
Definition modify {S} (f : S -> S) : M S unit := fun s => Ok tt (f s).

Notation "'do' x <- c1 ; c2" := (bind c1 (fun x => c2))
  (at level 10, x name, c1 at level 100, c2 at level 200).
Notation "'do' ' pat <- c1 ; c2" :=
  (bind c1 (fun x => match x with pat => c2 end))
  (at level 10, pat pattern, c1 at level 100, c2 at level 200).
Notation "c1 ;; c2" := (bind c1 (fun _ => c2))
  (at level 100, c2 at level 200, right associativity).

(** [enumerate(xs)], counting from [idx]. *)
Fixpoint enumerate {A} (idx : Z) (xs : list A) : list (Z * A) :=
  match xs with
  | [] => []
  | x :: xs' => (idx, x) :: enumerate (idx + 1) xs'
  end.

(** [a] divides [b], decided by a remainder. *)
#[global] Instance Z_divide_dec : RelDecision Z.divide.
Proof.
  intros a b. destruct (decide (a = 0)) as [->|Ha].
  - destruct (decide (b = 0)) as [->|Hb].
    + left. apply Z.divide_0_r.
    + right. intros H. by apply Z.divide_0_l in H.
  - destruct (decide (b mod a = 0)) as [Hm|Hm].
    + left. by apply Z.mod_divide.
    + right. intros H. by apply Z.mod_divide in H.
Defined.

(** [for batch_idx, x in enumerate(xs): acc = body batch_idx x acc], the
    loop-carried locals being [acc]. *)
Fixpoint for_enumerate {S A Acc} (body : Z -> A -> Acc -> M S Acc)
    (idx : Z) (xs : list A) (acc : Acc) : M S Acc :=
  match xs with
  | [] => ret acc
  | x :: xs' => do acc' <- body idx x acc; for_enumerate body (idx + 1) xs' acc'
  end.

(** ** base/base_logger.py *)

Module BaseLogger.

Section Logger.
Context {Entry : Type}.

(** The one attribute of a [BaseLogger]: [self.entries]. *)
Record t : Type := mk { entries : gmap Z Entry }.

(** [__init__]: [self.entries = {}]. *)
Definition __init__ : t := mk ∅.

(** [add_entry]: [self.entries[len(self.entries) + 1] = entry]. *)
Definition add_entry (entry : Entry) : M t unit :=
  modify (fun self =>
    mk (<[Z.of_nat (size (entries self)) + 1 := entry]> (entries self))).

(** What [log] hands back: the source returns a class object. *)
Inductive pyobject : Type :=
| ExceptionClass (e : exn).

(** [log]: [return NotImplementedError]. *)
Definition log : M t pyobject := ret (ExceptionClass NotImplementedError).

(** Running a sequence of [add_entry] calls. *)
Fixpoint add_entries (es : list Entry) : M t unit :=
  match es with
  | [] => ret tt
  | e :: es' => add_entry e ;; add_entries es'
  end.

(** Keys are dense: exactly 1 .. len. *)
Definition dense (self : t) : Prop :=
  forall k : Z, is_Some (entries self !! k)
                <-> 1 <= k <= Z.of_nat (size (entries self)).

(** A log is reachable when it is [__init__] followed by appends. *)
Inductive reachable : t -> Prop :=
| reach_init : reachable __init__
| reach_add self e self' :
    reachable self -> add_entry e self = Ok tt self' -> reachable self'.

End Logger.
Arguments t : clear implicits.

End BaseLogger.

(** ** Python and numpy arithmetic used by the trainer *)

(** The conversion of an int operand in a float operation ([100.0 * i],
    [x / n], [array / n]): the nearest double, ties to even.  The ints
    converted below are batch indices and results of [len], which are
    below [2^63]; Python's [OverflowError], raised from [2^1024] on, is
    out of their reach. *)
Definition float_of_int (n : Z) : float :=
  SF2Prim (binary_normalize prec emax n 0 false).

(** [x / n] with a float [x] and an int [n]: true division, which raises
    [ZeroDivisionError] when [n] is zero and is the binary64 quotient
    otherwise.  The totals start as the int [0]; [0 + x] and [0 / n] are
    computed as [0.0 + x] and [0.0 / n], so a total is kept as a float
    from the start. *)
Definition py_truediv {S} (x : float) (n : Z) : M S float :=
  if decide (n = 0) then raise ZeroDivisionError
  else ret (x / float_of_int n)%float.

(** [a % b] on ints: floored remainder, [ZeroDivisionError] when [b] is
    zero. *)
Definition py_mod {S} (a b : Z) : M S Z :=
  if decide (b = 0) then raise ZeroDivisionError else ret (a mod b).

(** [np.zeros(n)]. *)
Definition np_zeros (n : nat) : list float := replicate n 0%float.

(** [a += b] on two [float64] arrays of one shape: element-wise binary64
    addition. *)
Definition np_add (a b : list float) : list float := zip_with PrimFloat.add a b.

(** [(a / n).tolist()] for a [float64] array [a] and an int [n]:
    element-wise binary64 division by [float(n)].  numpy does not raise
    on [n = 0] (the quotients are then [nan] or infinite, as they are
    here); in both epochs the scalar division by the same [n] comes first
    and raises. *)
Definition np_truediv (a : list float) (n : Z) : list float :=
  (fun x => (x / float_of_int n)%float) <$> a.

(** [int(np.sqrt(n))] for a batch size [n] below [2^52]: [np.sqrt] of a
    negative number is [nan], and [int(nan)] raises [ValueError]; on
    [0 <= n < 2^52] the double square root, truncated, is the integer
    square root.  Larger batch sizes, where the double rounds, are
    outside what this definition describes. *)
Definition int_np_sqrt (n : Z) : exn + Z :=
  if decide (n < 0) then inl ValueError else inr (Z.sqrt n).

(** ** trainer/trainer.py *)

Module Trainer.

(** The collaborators the trainer is handed: tensors, the model, the loss,
    the optimizer and numpy's view of a tensor.  They are outside the
    repository, so they are an interface here.  The interface is of
    functions that return: a collaborator that raises aborts the epoch
    with its own exception, which nothing in the trainer catches; that
    path is not part of the embedding, and every statement below is about
    epochs whose collaborators return. *)
Class Backend : Type := {
  RawData : Type;                (* what the loader yields as [data] *)
  RawTarget : Type;              (* what the loader yields as [target] *)
  FloatVar : Type;               (* [Variable(torch.FloatTensor(..))] *)
  LongVar : Type;                (* [Variable(torch.LongTensor(..))] *)
  Output : Type;                 (* the model's prediction *)
  Labels : Type;                 (* a numpy array of class indices *)
  Params : Type;                 (* the model's parameters *)
  Grads : Type;                  (* the accumulated gradients *)
  OptState : Type;               (* the optimizer's own state *)
  float_variable : RawData -> FloatVar;
  long_variable : RawTarget -> LongVar;
  float_cuda : FloatVar -> FloatVar;
  long_cuda : LongVar -> LongVar;
  (* [self.model(data)] with the parameters and the train/eval mode *)
  model_call : Params -> bool -> FloatVar -> Output;
  (* [self.loss(output, target)], read as [loss.data[0]] *)
  loss_data0 : Output -> LongVar -> float;
  (* [loss.backward()]: adds this batch's gradients *)
  loss_backward : Params -> bool -> FloatVar -> LongVar -> Grads -> Grads;
  zero_grad : Grads -> Grads;
  optimizer_step : OptState -> Params -> Grads -> OptState * Params;
  (* [np.argmax(output.cpu().data.numpy(), axis=1)] *)
  argmax_axis1 : Output -> Labels;
  (* [target.cpu().data.numpy()] *)
  target_numpy : LongVar -> Labels
}.

Section WithBackend.
Context {B : Backend}.

Definition metric_fn : Type := Labels -> Labels -> float.

(** A batch source: [batch_size], and the batches it yields each time it
    is iterated; [len(loader)] is their number. *)
Record loader : Type := mk_loader {
  loader_batch_size : Z;
  batches : list (RawData * RawTarget)
}.

Definition len (l : loader) : Z := Z.of_nat (length (batches l)).

(** A window handle of the chart sink. *)
Definition win_id : Type := nat.

(** The keyword arguments of one [self.viz.line(...)] call. *)
Record viz_line : Type := mk_viz_line {
  line_Y : float;
  line_X : option Z;
  line_win : option win_id;
  line_update : option string;
  line_legend : string
}.

(** An argument of [str.format]. *)
Inductive fmt_arg : Type :=
| ArgInt (n : Z)
| ArgFloat (x : float).

(** The calls into collaborators, as they are observed from outside. *)
Inductive event : Type :=
| ModelTrain                       (* [self.model.train()] *)
| ModelEval                        (* [self.model.eval()] *)
| ModelCuda                        (* [self.model.cuda()] *)
| ZeroGrad                         (* [self.optimizer.zero_grad()] *)
| ModelCall                        (* [self.model(data)] *)
| LossCall                         (* [self.loss(output, target)] *)
| Backward                         (* [loss.backward()] *)
| OptimizerStep                    (* [self.optimizer.step()] *)
| LoggerInfo (template : string) (args : list fmt_arg)
| VizLine (call : viz_line).

(** The attributes no method assigns after construction. *)
Record config : Type := mk_config {
  metrics : list metric_fn;
  with_cuda : bool;
  verbosity : Z;
  visualize : bool;
  batch_size : Z;
  data_loader : loader;
  valid_data_loader : option loader;
  valid : bool;
  log_step : Z
}.

(** [self], and the trace of calls made so far. *)
Record t : Type := mk {
  cfg : config;
  params : Params;
  training : bool;
  on_cuda : bool;
  grads : Grads;
  optimizer : OptState;
  plt_train_loss : option win_id;
  plt_val_loss : option win_id;
  trace : list event
}.

Definition set_training (b : bool) (s : t) : t :=
  mk (cfg s) (params s) b (on_cuda s) (grads s) (optimizer s)
     (plt_train_loss s) (plt_val_loss s) (trace s).
Definition set_on_cuda (b : bool) (s : t) : t :=
  mk (cfg s) (params s) (training s) b (grads s) (optimizer s)
     (plt_train_loss s) (plt_val_loss s) (trace s).
Definition set_grads (g : Grads) (s : t) : t :=
  mk (cfg s) (params s) (training s) (on_cuda s) g (optimizer s)
     (plt_train_loss s) (plt_val_loss s) (trace s).
Definition set_optimizer (op : OptState * Params) (s : t) : t :=
  mk (cfg s) (snd op) (training s) (on_cuda s) (grads s) (fst op)
     (plt_train_loss s) (plt_val_loss s) (trace s).
Definition set_plt_train_loss (w : option win_id) (s : t) : t :=
  mk (cfg s) (params s) (training s) (on_cuda s) (grads s) (optimizer s)
     w (plt_val_loss s) (trace s).
Definition set_plt_val_loss (w : option win_id) (s : t) : t :=
  mk (cfg s) (params s) (training s) (on_cuda s) (grads s) (optimizer s)
     (plt_train_loss s) w (trace s).
Definition emit (e : event) (s : t) : t :=
  mk (cfg s) (params s) (training s) (on_cuda s) (grads s) (optimizer s)
     (plt_train_loss s) (plt_val_loss s) (trace s ++ [e]).

(** *** The collaborators' methods, acting on [self] *)

Definition model_train : M t unit := modify (fun s => emit ModelTrain (set_training true s)).
Definition model_eval : M t unit := modify (fun s => emit ModelEval (set_training false s)).
Definition model_cuda : M t unit := modify (fun s => emit ModelCuda (set_on_cuda true s)).

Definition optimizer_zero_grad : M t unit :=
  modify (fun s => emit ZeroGrad (set_grads (zero_grad (grads s)) s)).

Definition model (data : FloatVar) : M t Output :=
  do p <- gets params; do mode <- gets training;
  modify (emit ModelCall) ;; ret (model_call p mode data).

(** The loss object: its scalar [loss.data[0]], a Python float, and the
    graph [backward] walks. *)
Record loss_var : Type := mk_loss {
  data0 : float;
  graph : Params * bool * FloatVar * LongVar
}.

Definition loss (data : FloatVar) (output : Output) (target : LongVar) : M t loss_var :=
  do p <- gets params; do mode <- gets training;
  modify (emit LossCall) ;;
  ret (mk_loss (loss_data0 output target) (p, mode, data, target)).

Definition backward (l : loss_var) : M t unit :=
  let '(p, mode, data, target) := graph l in
  modify (fun s => emit Backward (set_grads (loss_backward p mode data target (grads s)) s)).

Definition optimizer_do_step : M t unit :=
  modify (fun s => emit OptimizerStep
                     (set_optimizer (optimizer_step (optimizer s) (params s) (grads s)) s)).

Definition logger_info (template : string) (args : list fmt_arg) : M t unit :=
  modify (emit (LoggerInfo template args)).

(** The chart sink hands out a fresh window per series it creates. *)
Definition creates_window (e : event) : bool :=
  match e with
  | VizLine c => match line_win c with None => true | Some _ => false end
  | _ => false
  end.

Definition fresh_win (tr : list event) : win_id :=
  length (filter (fun e => creates_window e = true) tr).

(** One [self.viz.line] call with keyword arguments [c]: it returns the
    window the point went to. *)
Definition viz_line_call (c : viz_line) : M t win_id :=
  do tr <- gets trace;
  modify (emit (VizLine c)) ;;
  ret (match line_win c with Some w => w | None => fresh_win tr end).

(** *** [Trainer]'s methods *)

(** What [super().__init__] (the base trainer, outside the repository)
    leaves on [self]. *)
Record base_trainer : Type := mk_base {
  base_params : Params;
  base_training : bool;
  base_on_cuda : bool;
  base_grads : Grads;
  base_optimizer : OptState;
  base_metrics : list metric_fn;
  base_with_cuda : bool;
  base_verbosity : Z;
  base_visualize : bool
}.

(** [__init__]. *)
Definition __init__ (base : base_trainer) (data_loader : loader)
    (valid_data_loader : option loader) : exn + t :=
  let batch_size := loader_batch_size data_loader in
  let valid := if valid_data_loader is Some _ then true else false in
  match int_np_sqrt batch_size with
  | inl e => inl e
  | inr log_step =>
      inr (mk (mk_config (base_metrics base) (base_with_cuda base)
                 (base_verbosity base) (base_visualize base)
                 batch_size data_loader valid_data_loader valid log_step)
              (base_params base) (base_training base) (base_on_cuda base)
              (base_grads base) (base_optimizer base)
              None None [])
  end.

(** [_to_variable]. *)
Definition _to_variable (data : RawData) (target : RawTarget)
    : M t (FloatVar * LongVar) :=
  let data := float_variable data in
  let target := long_variable target in
  do cuda <- gets (fun self => with_cuda (cfg self));
  if cuda then ret (float_cuda data, long_cuda target)
  else ret (data, target).

(** The loop of [_eval_metrics]:
    [for i, metric in enumerate(self.metrics): acc_metrics[i] += metric(output, target)],
    a binary64 addition into the [float64] array. *)
Fixpoint eval_metrics_loop (i : nat) (ms : list metric_fn)
    (output target : Labels) (acc_metrics : list float) : list float :=
  match ms with
  | [] => acc_metrics
  | metric :: ms' =>
      eval_metrics_loop (S i) ms' output target
        (alter (fun a => (a + metric output target)%float) i acc_metrics)
  end.

(** [_eval_metrics]. *)
Definition _eval_metrics (output : Output) (target : LongVar) : M t (list float) :=
  do ms <- gets (fun self => metrics (cfg self));
  let acc_metrics := np_zeros (length ms) in
  let output := argmax_axis1 output in
  let target := target_numpy target in
  ret (eval_metrics_loop 0 ms output target acc_metrics).

(** A value of the epoch summary: a float or a list of floats. *)
Inductive value : Type :=
| VFloat (x : float)
| VList (xs : list float).

(** [{**a, **b}]: the keys of both, [b]'s value where both have one. *)
Definition dict_merge (a b : gmap string value) : gmap string value := b ∪ a.

Definition progress_template : string :=
  "Train Epoch: {} [{}/{} ({:.0f}%)] Loss: {:.6f}".

Definition train_legend : string := "Training Loss".
Definition val_legend : string := "Validation Loss".

(** The body of the loop of [_train_epoch]; [acc] is
    [(total_loss, total_metrics)]. *)
Definition train_batch (epoch : Z) (batch_idx : Z) (b : RawData * RawTarget)
    (acc : float * list float) : M t (float * list float) :=
  let '(total_loss, total_metrics) := acc in
  do '(data, target) <- _to_variable (fst b) (snd b);
  optimizer_zero_grad ;;
  do output <- model data;
  do l <- loss data output target;
  backward l ;;
  optimizer_do_step ;;
  let total_loss := (total_loss + data0 l)%float in
  do m <- _eval_metrics output target;
  let total_metrics := np_add total_metrics m in
  do v <- gets (fun self => verbosity (cfg self));
  (if decide (2 <= v) then
     do step <- gets (fun self => log_step (cfg self));
     do r <- py_mod batch_idx step;
     if decide (r = 0) then
       do dl <- gets (fun self => data_loader (cfg self));
       do pct <- py_truediv (100 * float_of_int batch_idx)%float (len dl);
       logger_info progress_template
         [ArgInt epoch;
          ArgInt (batch_idx * loader_batch_size dl);
          ArgInt (len dl * loader_batch_size dl);
          ArgFloat pct;
          ArgFloat (data0 l)]
     else ret tt
   else ret tt) ;;
  do viz <- gets (fun self => visualize (cfg self));
  (if viz then
     do plt <- gets plt_train_loss;
     match plt with
     | None =>
         do w <- viz_line_call (mk_viz_line (data0 l) None None None train_legend);
         modify (set_plt_train_loss (Some w))
     | Some w =>
         do dl <- gets (fun self => data_loader (cfg self));
         viz_line_call (mk_viz_line (data0 l)
                          (Some (batch_idx + (epoch - 1) * len dl))
                          (Some w) (Some "append"%string) train_legend) ;;
         ret tt
     end
   else ret tt) ;;
  ret (total_loss, total_metrics).

(** The body of the loop of [_valid_epoch]. *)
Definition valid_batch (batch_idx : Z) (b : RawData * RawTarget)
    (acc : float * list float) : M t (float * list float) :=
  let '(total_val_loss, total_val_metrics) := acc in
  do '(data, target) <- _to_variable (fst b) (snd b);
  do output <- model data;
  do l <- loss data output target;
  let total_val_loss := (total_val_loss + data0 l)%float in
  do m <- _eval_metrics output target;
  let total_val_metrics := np_add total_val_metrics m in
  ret (total_val_loss, total_val_metrics).

(** [_valid_epoch]. *)
Definition _valid_epoch (epoch : Z) : M t (gmap string value) :=
  model_eval ;;
  do ms <- gets (fun self => metrics (cfg self));
  do vdl <- gets (fun self => valid_data_loader (cfg self));
  match vdl with
  | None => raise TypeError       (* iterating [None] *)
  | Some vdl =>
      do '(total_val_loss, total_val_metrics) <-
        for_enumerate valid_batch 0 (batches vdl) (0%float, np_zeros (length ms));
      do viz <- gets (fun self => visualize (cfg self));
      (if viz then
         do plt <- gets plt_val_loss;
         match plt with
         | None =>
             do y <- py_truediv total_val_loss (len vdl);
             do w <- viz_line_call (mk_viz_line y None None None val_legend);
             modify (set_plt_val_loss (Some w))
         | Some w =>
             do y <- py_truediv total_val_loss (len vdl);
             viz_line_call (mk_viz_line y (Some (epoch - 1)) (Some w)
                              (Some "append"%string) val_legend) ;;
             ret tt
         end
       else ret tt) ;;
      do val_loss <- py_truediv total_val_loss (len vdl);
      let val_metrics := np_truediv total_val_metrics (len vdl) in
      ret ({[ "val_loss"%string := VFloat val_loss;
              "val_metrics"%string := VList val_metrics ]} : gmap string value)
  end.

(** [_train_epoch]. *)
Definition _train_epoch (epoch : Z) : M t (gmap string value) :=
  model_train ;;
  do cuda <- gets (fun self => with_cuda (cfg self));
  (if cuda then model_cuda else ret tt) ;;
  do ms <- gets (fun self => metrics (cfg self));
  do dl <- gets (fun self => data_loader (cfg self));
  do '(total_loss, total_metrics) <-
    for_enumerate (train_batch epoch) 0 (batches dl) (0%float, np_zeros (length ms));
  do mean_loss <- py_truediv total_loss (len dl);
  let mean_metrics := np_truediv total_metrics (len dl) in
  let log : gmap string value :=
    {[ "loss"%string := VFloat mean_loss;
       "metrics"%string := VList mean_metrics ]} in
  do v <- gets (fun self => valid (cfg self));
  if v then
    do val_log <- _valid_epoch epoch;
    ret (dict_merge log val_log)
  else ret log.

(** A run of epochs, one [_train_epoch] call per index, stopping at the
    first that raises; it returns the summaries in order. *)
Fixpoint run_epochs (epochs : list Z) : M t (list (gmap string value)) :=
  match epochs with
  | [] => ret []
  | e :: es => do log <- _train_epoch e; do logs <- run_epochs es; ret (log :: logs)
  end.

(** *** The epoch seen batch by batch

    The functions below say, without the monad, what each batch of an
    epoch computes; the theorems relate the methods to them. *)

(** [_to_variable] as a function of the configuration. *)
Definition variables_of (c : config) (b : RawData * RawTarget) : FloatVar * LongVar :=
  if with_cuda c
  then (float_cuda (float_variable (fst b)), long_cuda (long_variable (snd b)))
  else (float_variable (fst b), long_variable (snd b)).

(** What one training batch does to parameters, gradients and optimizer:
    gradients reset, this batch's gradients added, one step taken. *)
Definition learn_step (c : config) (st : Params * Grads * OptState)
    (b : RawData * RawTarget) : Params * Grads * OptState :=
  let '(p, g, o) := st in
  let '(data, target) := variables_of c b in
  let g' := loss_backward p true data target (zero_grad g) in
  let '(o', p') := optimizer_step o p g' in
  (p', g', o').

(** The (prediction, target) pair of every training batch, each computed
    with the parameters as the batches before it left them. *)
Fixpoint train_outputs (c : config) (st : Params * Grads * OptState)
    (bs : list (RawData * RawTarget)) : list (Output * LongVar) :=
  match bs with
  | [] => []
  | b :: bs' =>
      let '(data, target) := variables_of c b in
      (model_call (fst (fst st)) true data, target)
        :: train_outputs c (learn_step c st b) bs'
  end.

(** Parameters, gradients and optimizer after all training batches. *)
Definition train_final (c : config) (st : Params * Grads * OptState)
    (bs : list (RawData * RawTarget)) : Params * Grads * OptState :=
  fold_left (learn_step c) bs st.

(** The (prediction, target) pair of every validation batch: evaluation
    mode, fixed parameters. *)
Definition valid_outputs (c : config) (p : Params)
    (bs : list (RawData * RawTarget)) : list (Output * LongVar) :=
  (fun b => let '(data, target) := variables_of c b in
            (model_call p false data, target)) <$> bs.

Definition batch_loss (ot : Output * LongVar) : float :=
  loss_data0 (fst ot) (snd ot).

(** The entry [_eval_metrics] returns for one metric function:
    [acc_metrics[i] += metric(output, target)] on an array of zeros. *)
Definition batch_metric (metric : metric_fn) (ot : Output * LongVar) : float :=
  (0 + metric (argmax_axis1 (fst ot)) (target_numpy (snd ot)))%float.

Definition learning (self : t) : Params * Grads * OptState :=
  (params self, grads self, optimizer self).

(** The per-batch losses of the training epoch started in state [self]. *)
Definition train_losses (self : t) : list float :=
  batch_loss <$> train_outputs (cfg self) (learning self)
                   (batches (data_loader (cfg self))).

(** The per-batch values of one metric over the training epoch. *)
Definition train_metric_values (self : t) (metric : metric_fn) : list float :=
  batch_metric metric <$> train_outputs (cfg self) (learning self)
                            (batches (data_loader (cfg self))).

(** The per-batch losses and metric values of a validation epoch over
    the source [vdl], run with parameters [p]. *)
Definition valid_losses (c : config) (p : Params) (vdl : loader) : list float :=
  batch_loss <$> valid_outputs c p (batches vdl).

Definition valid_metric_values (c : config) (p : Params) (vdl : loader)
    (metric : metric_fn) : list float :=
  batch_metric metric <$> valid_outputs c p (batches vdl).

(** The parameters with which the validation of a training epoch runs:
    those the training batches left. *)
Definition after_training (self : t) : Params :=
  fst (fst (train_final (cfg self) (learning self)
              (batches (data_loader (cfg self))))).

(** The state in which the training loop starts: training mode, and the
    model moved to the accelerator if that is configured. *)
Definition train_prelude (self : t) : t :=
  let s := emit ModelTrain (set_training true self) in
  if with_cuda (cfg self) then emit ModelCuda (set_on_cuda true s) else s.

(** *** Reading a trace *)

(** The progress lines: template and arguments of every [logger.info]. *)
Definition progress_lines (tr : list event) : list (string * list fmt_arg) :=
  omap (fun e => match e with
                 | LoggerInfo tpl args => Some (tpl, args)
                 | _ => None
                 end) tr.

(** The points sent to the chart with a given legend: the x-coordinate
    passed, if one was, and the y-coordinate. *)
Definition chart_points (legend : string) (tr : list event) : list (option Z * float) :=
  omap (fun e => match e with
                 | VizLine c =>
                     if decide (line_legend c = legend)
                     then Some (line_X c, line_Y c) else None
                 | _ => None
                 end) tr.


(** The calls that reset gradients, propagate them or update parameters. *)
Definition is_learning_event (e : event) : bool :=
  match e with
  | ZeroGrad | Backward | OptimizerStep => true
  | _ => false
  end.

Definition learning_events (tr : list event) : list event :=
  filter (fun e => is_learning_event e = true) tr.

(** *** What an epoch is expected to emit *)

(** The arguments of the progress line of batch [i] with loss [l]: epoch
    number, examples so far, total examples, percentage, loss. *)
Definition progress_args (c : config) (epoch i : Z) (l : float) : list fmt_arg :=
  let dl := data_loader c in
  [ArgInt epoch;
   ArgInt (i * loader_batch_size dl);
   ArgInt (len dl * loader_batch_size dl);
   ArgFloat (100 * float_of_int i / float_of_int (len dl))%float;
   ArgFloat l].

(** Batch [i] gets a progress line. *)
Definition logs_progress (c : config) (i : Z) : Prop :=
  2 <= verbosity c /\ (log_step c | i).

#[global] Instance logs_progress_dec c i : Decision (logs_progress c i).
Proof. unfold logs_progress. apply _. Defined.

(** The progress lines of an epoch whose batches, counted from [idx],
    have losses [losses]. *)
Definition expected_progress (c : config) (epoch idx : Z) (losses : list float)
    : list (string * list fmt_arg) :=
  (fun il => (progress_template, progress_args c epoch (fst il) (snd il)))
    <$> filter (fun il => logs_progress c (fst il)) (enumerate idx losses).

(** The points the training loop sends to its chart when charts are on:
    the first point ever creates the series and passes no x; every later
    one passes [batch_idx + (epoch - 1) * len]. *)
Fixpoint expected_train_points (c : config) (epoch idx : Z) (started : bool)
    (losses : list float) : list (option Z * float) :=
  match losses with
  | [] => []
  | l :: ls =>
      ((if started then Some (idx + (epoch - 1) * len (data_loader c)) else None), l)
        :: expected_train_points c epoch (idx + 1) true ls
  end.


(** The calls one training batch makes, in order, when the chart handle
    is [plt] and the batch has loss [l]. *)
Definition train_batch_events (c : config) (epoch i : Z) (l : float)
    (plt : option win_id) : list event :=
  [ZeroGrad; ModelCall; LossCall; Backward; OptimizerStep]
  ++ (if decide (2 <= verbosity c /\ i mod log_step c = 0)
      then [LoggerInfo progress_template (progress_args c epoch i l)] else [])
  ++ (if visualize c
      then [VizLine (match plt with
                     | None => mk_viz_line l None None None train_legend
                     | Some w =>
                         mk_viz_line l (Some (i + (epoch - 1) * len (data_loader c)))
                           (Some w) (Some "append"%string) train_legend
                     end)]
      else []).

(** The epoch can log: it is quiet, or its cadence and its batch count
    are not zero. *)
Definition can_log (c : config) : Prop :=
  verbosity c < 2 \/ (log_step c <> 0 /\ len (data_loader c) <> 0).

(** The epoch's cadence is usable: it is quiet, or the cadence is not
    zero. *)
Definition cadence_ok (c : config) : Prop :=
  verbosity c < 2 \/ log_step c <> 0.

(** The call the validation epoch makes to its chart, and the handle it
    leaves. *)
Definition valid_viz_line (epoch : Z) (y : float) (plt : option win_id) : viz_line :=
  match plt with
  | None => mk_viz_line y None None None val_legend
  | Some w => mk_viz_line y (Some (epoch - 1)) (Some w) (Some "append"%string) val_legend
  end.

(** The calls of a validation loop over [n] batches, and of a whole
    validation epoch with mean loss [y] started with chart handle [plt]. *)
Definition valid_loop_events (n : nat) : list event :=
  ModelEval :: mjoin (replicate n [ModelCall; LossCall]).

Definition valid_events (c : config) (epoch : Z) (n : nat) (y : float)
    (plt : option win_id) : list event :=
  valid_loop_events n
  ++ (if visualize c then [VizLine (valid_viz_line epoch y plt)] else []).

(** Appending to the trace only. *)
Definition emits (es : list event) (s : t) : t :=
  mk (cfg s) (params s) (training s) (on_cuda s) (grads s) (optimizer s)
     (plt_train_loss s) (plt_val_loss s) (trace s ++ es).

(** The calls [_train_epoch] makes before its loop: [self.model.train()]
    and, with [with_cuda], [self.model.cuda()]. *)
Definition prelude_events (c : config) : list event :=
  ModelTrain :: (if with_cuda c then [ModelCuda] else []).

(** The calls that switch the model's mode or move it. *)
Definition is_mode_event (e : event) : bool :=
  match e with
  | ModelTrain | ModelEval | ModelCuda => true
  | _ => false
  end.

(** The mode calls of a trace, in order. *)
Definition mode_events (tr : list event) : list event :=
  filter (fun e => is_mode_event e = true) tr.

(** The calls that compute: gradient reset, forward pass, loss, backward
    pass, optimizer step. *)
Definition is_compute_event (e : event) : bool :=
  match e with
  | ZeroGrad | ModelCall | LossCall | Backward | OptimizerStep => true
  | _ => false
  end.

(** The computing calls of a trace, in order. *)
Definition compute_events (tr : list event) : list event :=
  filter (fun e => is_compute_event e = true) tr.

End WithBackend.
End Trainer.

(** ** Means, as the loops compute them *)

(** The running total of a loop: [total += x] for each [x] in order,
    every addition rounded. *)
Definition fsum_from (total : float) (xs : list float) : float :=
  fold_left PrimFloat.add xs total.

Definition fsum (xs : list float) : float := fsum_from 0%float xs.

(** The binary64 mean: the running total from [0], divided by the number
    of values. *)
Definition mean (xs : list float) : float :=
  (fsum xs / float_of_int (Z.of_nat (length xs)))%float.



(** ** The summaries an epoch is expected to return *)

Section Summaries.
Context {B : Trainer.Backend}.
Import Trainer.

(** The training log: mean loss and, per configured metric, its mean. *)
Definition train_summary (self : t) : gmap string value :=
  {[ "loss"%string := VFloat (mean (train_losses self));
     "metrics"%string :=
       VList ((fun m => mean (train_metric_values self m)) <$> metrics (cfg self)) ]}.

(** The validation log over the source [vdl], run with parameters [p]. *)
Definition valid_summary (c : config) (p : Params) (vdl : loader)
    : gmap string value :=
  {[ "val_loss"%string := VFloat (mean (valid_losses c p vdl));
     "val_metrics"%string :=
       VList ((fun m => mean (valid_metric_values c p vdl m)) <$> metrics c) ]}.

(** The validation part of an epoch can complete: if validation is on,
    there is a validation source and it has a batch. *)
Definition valid_ready (c : config) : Prop :=
  valid c = true ->
  exists vdl, valid_data_loader c = Some vdl /\ batches vdl <> [].

(** An epoch can complete: usable cadence, a training batch, and a
    validation part that can complete. *)
Definition ready (c : config) : Prop :=
  cadence_ok c /\ batches (data_loader c) <> [] /\ valid_ready c.

(** The chart calls of a trace, in order. *)
Definition viz_calls (tr : list event) : list viz_line :=
  omap (fun e => match e with VizLine call => Some call | _ => None end) tr.

(** The calls of the validation part of a training epoch run with
    parameters [p]: none when validation is off. *)
Definition epoch_valid_events (c : config) (epoch : Z) (p : Params)
    (plt : option win_id) : list event :=
  if valid c
  then match valid_data_loader c with
       | Some vdl => valid_events c epoch (length (batches vdl))
                       (mean (valid_losses c p vdl)) plt
       | None => []
       end
  else [].

End Summaries.

(** ** A small concrete trainer

    A one-parameter model over the integers, used to run the methods on
    concrete inputs: the prediction is parameter plus input, the loss is the
    distance between prediction and target, every batch adds one to the
    gradient and a step adds the gradient to the parameter. *)

Module Scenario.
Import Trainer.

#[global] Instance toy : Backend := {|
  RawData := Z; RawTarget := Z; FloatVar := Z; LongVar := Z;
  Output := Z; Labels := Z; Params := Z; Grads := Z; OptState := nat;
  float_variable := fun d => d;
  long_variable := fun t => t;
  float_cuda := fun d => d;
  long_cuda := fun t => t;
  model_call := fun p _ d => p + d;
  loss_data0 := fun out tgt => float_of_int (Z.abs (out - tgt));
  loss_backward := fun _ _ _ _ g => g + 1;
  zero_grad := fun _ => 0;
  optimizer_step := fun o p g => (S o, p + g);
  argmax_axis1 := fun out => out;
  target_numpy := fun t => t
|}.

(** A metric that always returns 1.0, and exact-match accuracy. *)
Definition always_one : metric_fn := fun _ _ => 1%float.
Definition exact_match : metric_fn :=
  fun out tgt => if decide (out = tgt) then 1%float else 0%float.

(** Three batches of batch size 4; with the updates above their losses
    are 1, 2 and 3. *)
Definition three_batches : loader := mk_loader 4 [(1, 0); (1, 0); (1, 0)].
Definition two_batches : loader := mk_loader 4 [(5, 8); (2, 5)].
Definition no_batches : loader := mk_loader 4 [].

Definition base (ms : list metric_fn) (verbosity : Z) (visualize : bool) : base_trainer :=
  mk_base 0 true false 0 0%nat ms false verbosity visualize.

(** What [__init__] builds from [base], as a record. *)
Definition trainer (ms : list metric_fn) (verbosity : Z) (visualize : bool)
    (dl : loader) (vdl : option loader) : t :=
  mk (mk_config ms false verbosity visualize (loader_batch_size dl) dl vdl
        (if vdl is Some _ then true else false)
        (Z.sqrt (loader_batch_size dl)))
     0 true false 0 0%nat None None [].

(** No metrics, no validation source, chatty, charts on. *)
Definition plain : t := trainer [] 2 true three_batches None.

(** Two metrics and a validation source. *)
Definition full : t :=
  trainer [always_one; exact_match] 2 true three_batches (Some two_batches).

(** Training data but an empty validation source, and the reverse. *)
Definition empty_valid : t := trainer [] 2 true three_batches (Some no_batches).
Definition empty_train : t := trainer [] 2 true no_batches None.

(** Metrics and validation, but silent: verbosity 1 and charts off. *)
Definition quiet : t :=
  trainer [always_one] 1 false three_batches (Some two_batches).

(** A source whose batch size is 0, so that [log_step] is 0. *)
Definition zero_batch_size : loader := mk_loader 0 [(1, 0)].
Definition stalled : t := trainer [] 2 false zero_batch_size None.


(** Validation switched on with no validation source: not a state
    [__init__] builds. *)
Definition orphan : t :=
  mk (mk_config [] false 0 false 4 three_batches None true 2)
     0 true false 0 0%nat None None [].

End Scenario.

(** * Properties *)

(** ** The monad *)

Lemma bind_Ok {S A B} (m : M S A) (k : A -> M S B) s a s' :
  m s = Ok a s' -> bind m k s = k a s'.
Proof. unfold bind. by intros ->. Qed.

Lemma bind_Err {S A B} (m : M S A) (k : A -> M S B) s e s' :
  m s = Err e s' -> bind m k s = Err e s'.
Proof. unfold bind. by intros ->. Qed.

(** ** The base logger *)

Section LoggerFacts.
Context {Entry : Type}.
Import BaseLogger.
Implicit Types (self : BaseLogger.t Entry) (e : Entry) (es : list Entry).

Lemma add_entry_eq e self :
  add_entry e self
  = Ok tt (mk (<[Z.of_nat (size (entries self)) + 1 := e]> (entries self))).
Proof. reflexivity. Qed.

Lemma dense_fresh self :
  dense self -> entries self !! (Z.of_nat (size (entries self)) + 1) = None.
Proof.
  intros Hd. apply eq_None_not_Some. intros Hs. apply Hd in Hs. lia.
Qed.

Lemma dense_init : dense (@__init__ Entry).
Proof.
  intros k. cbn. rewrite lookup_empty, map_size_empty. split.
  - intros [? ?]. discriminate.
  - lia.
Qed.

Lemma dense_add e self :
  dense self ->
  dense (mk (<[Z.of_nat (size (entries self)) + 1 := e]> (entries self))).
Proof.
  intros Hd k. cbn.
  rewrite map_size_insert_None by by apply dense_fresh.
  rewrite lookup_insert. case_decide as Hk.
  - subst k. split; [lia | eauto].
  - rewrite (Hd k). lia.
Qed.

Lemma reachable_dense self : reachable self -> dense self.
Proof.
  induction 1 as [|self e self' _ IH Hadd].
  - apply dense_init.
  - rewrite add_entry_eq in Hadd. injection Hadd as <-. by apply dense_add.
Qed.

Lemma add_entries_reachable es self :
  reachable self ->
  exists self', add_entries es self = Ok tt self' /\ reachable self'.
Proof.
  revert self. induction es as [|e es IH]; intros self Hr; cbn.
  - by exists self.
  - apply IH. eapply reach_add; [done | apply add_entry_eq].
Qed.

(** Appending [es] to a dense log of size [n] puts [es !! i] under key
    [n + 1 + i], leaves every older entry alone and adds [length es]
    keys. *)
Lemma add_entries_spec es self :
  dense self ->
  exists self',
    add_entries es self = Ok tt self'
    /\ dense self'
    /\ size (entries self') = (size (entries self) + length es)%nat
    /\ (forall k v, entries self !! k = Some v -> entries self' !! k = Some v)
    /\ (forall (i : nat) e, es !! i = Some e ->
          entries self' !! (Z.of_nat (size (entries self)) + 1 + Z.of_nat i) = Some e).
Proof.
  revert self. induction es as [|e es IH]; intros self Hd; cbn.
  - exists self. split; [done|]. split; [done|]. split; [lia|].
    split; [auto|]. intros i e. by rewrite lookup_nil.
  - destruct (IH _ (dense_add e self Hd)) as (self' & Hrun & Hd' & Hsz & Hold & Hnew).
    cbn in Hsz, Hold, Hnew.
    rewrite map_size_insert_None in Hsz, Hnew by by apply dense_fresh.
    exists self'. split; [done|]. split; [done|]. split; [lia|]. split.
    + intros k v Hk. apply Hold. rewrite lookup_insert_ne; [done|].
      intros <-. rewrite dense_fresh in Hk; [done|done].
    + intros [|i] e' Hi; cbn in Hi.
      * injection Hi as <-. apply Hold.
        rewrite Z.add_0_r. apply lookup_insert_eq.
      * specialize (Hnew i e' Hi). rewrite <- Hnew. f_equal. lia.
Qed.

(** C8: on every log built by [__init__] and appends, one more append
    never fails, stores the entry under key (current count + 1), grows
    the log by exactly one and keeps every earlier entry as it was; so
    does any sequence of appends; and after appending [es] to a new log
    the keys are exactly 1 .. [length es], key [k] holding the [k]-th
    appended entry. *)
Theorem add_entry_appends_densely :
  (forall self e, reachable self ->
     exists self',
       add_entry e self = Ok tt self'
       /\ reachable self'
       /\ entries self' !! (Z.of_nat (size (entries self)) + 1) = Some e
       /\ size (entries self') = S (size (entries self))
       /\ (forall k v, entries self !! k = Some v -> entries self' !! k = Some v))
  /\ (forall self es, reachable self ->
       exists self',
         add_entries es self = Ok tt self'
         /\ size (entries self') = (size (entries self) + length es)%nat
         /\ (forall k v, entries self !! k = Some v -> entries self' !! k = Some v))
  /\ (forall es,
       exists self',
         add_entries es __init__ = Ok tt self'
         /\ size (entries self') = length es
         /\ (forall k : Z,
               entries self' !! k
               = if decide (1 <= k) then es !! Z.to_nat (k - 1) else None)).
Proof.
  split; [|split].
  - intros self e Hr. pose proof (reachable_dense self Hr) as Hd.
    destruct (add_entries_spec [e] self Hd) as (self' & Hrun & _ & Hsz & Hold & Hnew).
    assert (Hadd : add_entry e self = Ok tt self') by exact Hrun.
    exists self'. split; [done|].
    split; [by apply (reach_add self e)|]. split.
    { specialize (Hnew 0%nat e eq_refl). by rewrite Z.add_0_r in Hnew. }
    split; [cbn in Hsz; lia | done].
  - intros self es Hr.
    destruct (add_entries_spec es self (reachable_dense self Hr))
      as (self' & Hrun & _ & Hsz & Hold & _).
    by exists self'.
  - intros es.
    destruct (add_entries_spec es __init__ dense_init)
      as (self' & Hrun & Hd & Hsz & _ & Hnew).
    cbn [entries __init__] in Hsz, Hnew. rewrite map_size_empty in Hsz, Hnew.
    exists self'. split; [done|]. split; [done|].
    intros k. case_decide as Hk.
    + destruct (es !! Z.to_nat (k - 1)) as [e|] eqn:He.
      * specialize (Hnew _ _ He). rewrite <- Hnew. f_equal. lia.
      * apply eq_None_not_Some. intros Hs. apply Hd in Hs.
        apply lookup_ge_None in He. lia.
    + apply eq_None_not_Some. intros Hs. apply Hd in Hs. lia.
Qed.

(** C3: what the code does on [log]: on every base logger the call
    returns normally, handing back the class [NotImplementedError] as
    its value and leaving the log as it was; nothing is raised. *)
Theorem log_returns_the_exception_class self :
  log self = Ok (ExceptionClass NotImplementedError) self
  /\ (forall (x : exn) self', log self <> Err x self').
Proof. split; [reflexivity | discriminate]. Qed.

(** X13: [add_entry] grows the log by one exactly when the key
    [len(entries) + 1] is free.  On a log where that key is taken (the
    attribute [entries] is public, so a caller can build one) the call
    replaces the entry stored there and the size stays; in both cases the
    new entry is found at that key and every other key keeps what it
    held. *)
Theorem add_entry_grows_iff_slot_free e self :
  let k := Z.of_nat (size (entries self)) + 1 in
  exists self',
    add_entry e self = Ok tt self'
    /\ entries self' !! k = Some e
    /\ (forall j, j <> k -> entries self' !! j = entries self !! j)
    /\ (entries self !! k = None ->
        size (entries self') = S (size (entries self)))
    /\ (is_Some (entries self !! k) ->
        size (entries self') = size (entries self)).
Proof.
  intros k. eexists. split; [apply add_entry_eq|]. cbn [entries]. fold k.
  split; [apply lookup_insert_eq|].
  split; [intros j Hj; by apply lookup_insert_ne|].
  split.
  - intros Hfree. by apply map_size_insert_None.
  - intros Htaken. by apply map_size_insert_Some.
Qed.

End LoggerFacts.

(** ** The trainer *)

Section TrainerFacts.
Context {B : Trainer.Backend}.
Import Trainer.
Implicit Types (self : t) (c : config) (epoch idx : Z)
  (bs : list (RawData * RawTarget)) (tr : list event).

(* The conversion of ints stays symbolic during simplification. *)
Local Opaque float_of_int.

(** *** Metric evaluation *)

Lemma eval_metrics_loop_app (ms : list metric_fn) output target (pre zs : list float) :
  length zs = length ms ->
  eval_metrics_loop (length pre) ms output target (pre ++ zs)
  = pre ++ zip_with (fun z (m : metric_fn) => (z + m output target)%float) zs ms.
Proof.
  revert pre zs. induction ms as [|m ms IH]; intros pre [|z zs] Hlen;
    try discriminate; cbn.
  - done.
  - replace (length pre) with (length pre + 0)%nat at 2 by lia.
    rewrite alter_app_r. cbn.
    replace (pre ++ (z + m output target)%float :: zs)
      with ((pre ++ [(z + m output target)%float]) ++ zs) by by rewrite <- app_assoc.
    replace (S (length pre)) with (length (pre ++ [(z + m output target)%float]))
      by (rewrite length_app; cbn; lia).
    rewrite IH by (cbn in Hlen; lia). by rewrite <- app_assoc.
Qed.

Lemma eval_metrics_loop_zeros (ms : list metric_fn) output target :
  eval_metrics_loop 0 ms output target (np_zeros (length ms))
  = (fun m : metric_fn => (0 + m output target)%float) <$> ms.
Proof.
  pose proof (eval_metrics_loop_app ms output target [] (np_zeros (length ms))) as H.
  cbn in H. rewrite H by apply length_replicate.
  unfold np_zeros. clear H. induction ms as [|m ms IH]; cbn; [done|].
  by rewrite IH.
Qed.

Lemma _eval_metrics_eq output target self :
  _eval_metrics output target self
  = Ok ((fun m => batch_metric m (output, target)) <$> metrics (cfg self)) self.
Proof.
  unfold _eval_metrics, bind, gets, ret. by rewrite eval_metrics_loop_zeros.
Qed.

Lemma np_zeros_fmap (ms : list metric_fn) :
  np_zeros (length ms) = (fun _ => 0%float) <$> ms.
Proof. unfold np_zeros. induction ms; cbn; [done | by f_equal]. Qed.

Lemma np_add_fmap (f g : metric_fn -> float) (ms : list metric_fn) :
  np_add (f <$> ms) (g <$> ms) = (fun m => (f m + g m)%float) <$> ms.
Proof. unfold np_add. induction ms; cbn; [done | by f_equal]. Qed.

(** *** One batch *)

Lemma _to_variable_eq (b : RawData * RawTarget) self :
  _to_variable (fst b) (snd b) self = Ok (variables_of (cfg self) b) self.
Proof.
  unfold _to_variable, variables_of, bind, gets, ret.
  by destruct (with_cuda (cfg self)).
Qed.

Lemma valid_batch_eq idx (b : RawData * RawTarget) (tl : float) (f : metric_fn -> float) self :
  let ot := (model_call (params self) (training self) (fst (variables_of (cfg self) b)),
             snd (variables_of (cfg self) b)) in
  valid_batch idx b (tl, f <$> metrics (cfg self)) self
  = Ok ((tl + batch_loss ot)%float,
        (fun m => (f m + batch_metric m ot)%float) <$> metrics (cfg self))
       (emits [ModelCall; LossCall] self).
Proof.
  intros ot. unfold valid_batch.
  erewrite bind_Ok by apply _to_variable_eq.
  destruct (variables_of (cfg self) b) as [data target] eqn:Hv.
  destruct self as [c p mode cu g o pt pv tr]. cbn in *.
  unfold bind, model, loss, gets, modify, ret. cbn.
  fold (np_zeros (length (metrics c))).
  rewrite eval_metrics_loop_zeros, np_add_fmap.
  unfold emits, emit. cbn. by rewrite <- app_assoc.
Qed.

(* Reduce setters and projections applied to a state, innermost first. *)
Ltac norm_state :=
  cbv beta iota zeta delta
    [emit emits set_optimizer set_grads set_plt_train_loss set_plt_val_loss
     set_training set_on_cuda cfg params training on_cuda grads optimizer
     plt_train_loss plt_val_loss trace fst snd].

Lemma train_batch_eq epoch idx (b : RawData * RawTarget) (tl : float)
    (f : metric_fn -> float) self :
  training self = true ->
  can_log (cfg self) ->
  let c := cfg self in
  let ot := (model_call (params self) true (fst (variables_of c b)),
             snd (variables_of c b)) in
  let st' := learn_step c (learning self) b in
  exists plt',
    train_batch epoch idx b (tl, f <$> metrics c) self
    = Ok ((tl + batch_loss ot)%float,
          (fun m => (f m + batch_metric m ot)%float) <$> metrics c)
         (mk c (fst (fst st')) true (on_cuda self) (snd (fst st')) (snd st')
             plt' (plt_val_loss self)
             (trace self
              ++ train_batch_events c epoch idx (batch_loss ot) (plt_train_loss self)))
    /\ (is_Some (plt_train_loss self) \/ visualize c = false ->
        plt' = plt_train_loss self)
    /\ (visualize c = true -> is_Some plt').
Proof.
  intros Hmode Hlog c ot st'. subst c ot st'. unfold train_batch.
  erewrite bind_Ok by apply _to_variable_eq.
  unfold learn_step, learning, train_batch_events, can_log in *.
  destruct (variables_of (cfg self) b) as [data target] eqn:Hv.
  destruct self as [c p mode cu g o pt pv tr]. cbn in *. subst mode.
  destruct (optimizer_step o p (loss_backward p true data target (zero_grad g)))
    as [o' p'] eqn:Hstep.
  unfold bind, model, loss, backward, optimizer_zero_grad, optimizer_do_step,
    logger_info, viz_line_call, py_mod, py_truediv, gets, modify, ret, raise.
  cbn. fold (np_zeros (length (metrics c))).
  rewrite eval_metrics_loop_zeros, np_add_fmap.
  unfold batch_loss, batch_metric. norm_state.
  repeat (case_decide; norm_state); try tauto; try lia.
  all: destruct (visualize c) eqn:Hviz; destruct pt as [w|]; norm_state.
  all: eexists; (split; [rewrite <- ?app_assoc; reflexivity|]).
  all: (split; [intros [[? ?]|?]; congruence || done | intros; eauto; done]).
Qed.

(** *** Reading the events of one training batch *)

Lemma progress_lines_app tr1 tr2 :
  progress_lines (tr1 ++ tr2) = progress_lines tr1 ++ progress_lines tr2.
Proof. apply omap_app. Qed.

Lemma chart_points_app legend tr1 tr2 :
  chart_points legend (tr1 ++ tr2)
  = chart_points legend tr1 ++ chart_points legend tr2.
Proof. apply omap_app. Qed.

Lemma learning_events_app tr1 tr2 :
  learning_events (tr1 ++ tr2) = learning_events tr1 ++ learning_events tr2.
Proof. apply filter_app. Qed.

Lemma logs_progress_mod c i :
  can_log c -> (2 <= verbosity c /\ i mod log_step c = 0) <-> logs_progress c i.
Proof.
  unfold can_log, logs_progress. intros [Hq|[Hs _]]; [lia|].
  by rewrite Z.mod_divide.
Qed.

Lemma progress_lines_batch c epoch i l plt :
  can_log c ->
  progress_lines (train_batch_events c epoch i l plt)
  = if decide (logs_progress c i)
    then [(progress_template, progress_args c epoch i l)] else [].
Proof.
  intros Hlog. unfold train_batch_events.
  rewrite !progress_lines_app. cbn.
  pose proof (logs_progress_mod c i Hlog) as Hiff.
  destruct (visualize c); do 2 case_decide; cbn; tauto || done.
Qed.

Lemma train_points_batch c epoch i l plt :
  chart_points train_legend (train_batch_events c epoch i l plt)
  = if visualize c
    then [((if plt is Some _ then Some (i + (epoch - 1) * len (data_loader c))
            else None), l)]
    else [].
Proof.
  unfold train_batch_events. rewrite !chart_points_app. cbn.
  case_decide; destruct (visualize c), plt; done.
Qed.

Lemma val_points_batch c epoch i l plt :
  chart_points val_legend (train_batch_events c epoch i l plt) = [].
Proof.
  unfold train_batch_events. rewrite !chart_points_app. cbn.
  case_decide; destruct (visualize c), plt; done.
Qed.

(** *** The training loop *)

Lemma train_outputs_cons c st (b : RawData * RawTarget) bs :
  train_outputs c st (b :: bs)
  = (model_call (fst (fst st)) true (fst (variables_of c b)), snd (variables_of c b))
      :: train_outputs c (learn_step c st b) bs.
Proof. cbn. by destruct (variables_of c b). Qed.

Lemma expected_progress_cons c epoch idx l ls :
  expected_progress c epoch idx (l :: ls)
  = (if decide (logs_progress c idx)
     then [(progress_template, progress_args c epoch idx l)] else [])
    ++ expected_progress c epoch (idx + 1) ls.
Proof.
  unfold expected_progress. cbn [enumerate]. rewrite filter_cons. cbn [fst snd].
  by case_decide.
Qed.

Lemma train_loop_spec epoch bs : forall idx (tl : float) (f : metric_fn -> float) self,
  training self = true ->
  can_log (cfg self) ->
  let c := cfg self in
  let outs := train_outputs c (learning self) bs in
  let losses := batch_loss <$> outs in
  exists self' new,
    for_enumerate (train_batch epoch) idx bs (tl, f <$> metrics c) self
    = Ok (fsum_from tl losses,
          (fun m => fsum_from (f m) (batch_metric m <$> outs)) <$> metrics c)
         self'
    /\ cfg self' = c
    /\ learning self' = train_final c (learning self) bs
    /\ training self' = true
    /\ on_cuda self' = on_cuda self
    /\ plt_val_loss self' = plt_val_loss self
    /\ (is_Some (plt_train_loss self) \/ visualize c = false \/ bs = [] ->
        plt_train_loss self' = plt_train_loss self)
    /\ (visualize c = true -> bs <> [] -> is_Some (plt_train_loss self'))
    /\ trace self' = trace self ++ new
    /\ progress_lines new = expected_progress c epoch idx losses
    /\ chart_points train_legend new
       = (if visualize c
          then expected_train_points c epoch idx
                 (if plt_train_loss self is Some _ then true else false) losses
          else [])
    /\ chart_points val_legend new = [].
Proof.
  induction bs as [|b bs IH]; intros idx tl f self Hmode Hlog c outs losses;
    subst losses outs c.
  - exists self, []. cbn [for_enumerate train_outputs fmap list_fmap].
    unfold ret. rewrite app_nil_r.
    split; [done|]. split; [done|]. split; [done|]. split; [done|].
    split; [done|]. split; [done|]. split; [done|]. split; [done|].
    split; [done|]. split; [done|]. split; [|done].
    by destruct (visualize (cfg self)).
  - destruct (train_batch_eq epoch idx b tl f self Hmode Hlog)
      as (plt1 & Hstep & Hkeep1 & Hsome1).
    cbv zeta in Hstep.
    rewrite train_outputs_cons.
    set (c := cfg self) in *.
    set (ot := (model_call (params self) true (fst (variables_of c b)),
                snd (variables_of c b))) in *.
    change (fst (fst (learning self))) with (params self). fold ot.
    remember (learn_step c (learning self) b) as st1 eqn:Hst1.
    destruct st1 as [[p1 g1] o1]. cbn [fst snd] in Hstep.
    set (s1 := mk c p1 true (on_cuda self) g1 o1 plt1 (plt_val_loss self)
                  (trace self ++ train_batch_events c epoch idx (batch_loss ot)
                                   (plt_train_loss self))) in *.
    destruct (IH (idx + 1) (tl + batch_loss ot)%float
                (fun m => (f m + batch_metric m ot)%float) s1 eq_refl Hlog)
      as (self' & new & Hrun & Hcfg & Hlearn & Hmode' & Hcuda & Hval & Hkeep
          & Hsome & Htrace & Hprog & Hpts & Hvpts).
    change (cfg s1) with c in *. change (learning s1) with (p1, g1, o1) in *.
    change (on_cuda s1) with (on_cuda self) in *.
    change (plt_val_loss s1) with (plt_val_loss self) in *.
    change (plt_train_loss s1) with plt1 in *.
    change (trace s1) with (trace self ++ train_batch_events c epoch idx (batch_loss ot)
                                   (plt_train_loss self)) in *.
    exists self', (train_batch_events c epoch idx (batch_loss ot) (plt_train_loss self)
                   ++ new).
    split.
    { cbn [for_enumerate]. erewrite bind_Ok by exact Hstep. by rewrite Hrun. }
    split; [done|].
    split; [by rewrite Hlearn; unfold train_final; cbn [fold_left]; rewrite <- Hst1|].
    split; [done|]. split; [done|]. split; [done|]. split.
    { intros [Hs|[Hv|?]]; [| |done].
      - rewrite Hkeep; [apply Hkeep1; by left|].
        left. rewrite Hkeep1 by by left. done.
      - rewrite Hkeep; [apply Hkeep1; by right|]. by right; left. }
    split.
    { intros Hv _. destruct bs as [|b' bs'].
      - rewrite Hkeep by (right; by right). by apply Hsome1.
      - by apply Hsome. }
    split; [by rewrite Htrace, app_assoc|].
    split.
    { rewrite progress_lines_app, progress_lines_batch, Hprog by done.
      cbn [fmap list_fmap].
      by rewrite expected_progress_cons. }
    split.
    { rewrite chart_points_app, train_points_batch, Hpts.
      cbn [fmap list_fmap expected_train_points].
      destruct (visualize c) eqn:Hv; [|done]. cbn [app].
      destruct (Hsome1 eq_refl) as [w1 ->]. by destruct (plt_train_loss self). }
    by rewrite chart_points_app, val_points_batch, Hvpts.
Qed.

(** *** The validation loop *)

Lemma emits_emits es1 es2 self : emits es2 (emits es1 self) = emits (es1 ++ es2) self.
Proof. unfold emits. cbn. by rewrite app_assoc. Qed.

Lemma emits_nil self : emits [] self = self.
Proof. destruct self. unfold emits. cbn. by rewrite app_nil_r. Qed.

(** The calls of a validation loop over [n] batches. *)
Lemma valid_loop_spec bs : forall idx (tl : float) (f : metric_fn -> float) self,
  training self = false ->
  let c := cfg self in
  let outs := valid_outputs c (params self) bs in
  for_enumerate valid_batch idx bs (tl, f <$> metrics c) self
  = Ok (fsum_from tl (batch_loss <$> outs),
        (fun m => fsum_from (f m) (batch_metric m <$> outs)) <$> metrics c)
       (emits (mjoin (replicate (length bs) [ModelCall; LossCall])) self).
Proof.
  induction bs as [|b bs IH]; intros idx tl f self Hmode c outs.
  - subst c outs. cbn. unfold ret. by rewrite emits_nil.
  - cbn [for_enumerate]. erewrite bind_Ok by apply valid_batch_eq.
    rewrite Hmode. fold c.
    set (ot := (model_call (params self) false (fst (variables_of c b)),
                snd (variables_of c b))).
    assert (Houts : outs = ot :: valid_outputs c (params self) bs).
    { subst outs ot. unfold valid_outputs. cbn. by destruct (variables_of c b). }
    pose proof (IH (idx + 1) (tl + batch_loss ot)%float
                  (fun m => (f m + batch_metric m ot)%float)
                  (emits [ModelCall; LossCall] self) Hmode) as Hrun.
    cbn zeta in Hrun. change (cfg (emits _ self)) with c in Hrun.
    change (params (emits _ self)) with (params self) in Hrun.
    by rewrite Hrun, emits_emits, Houts.
Qed.

(** *** The validation epoch *)

Lemma mean_div (xs : list float) (n : Z) :
  n = Z.of_nat (length xs) ->
  (fsum_from 0 xs / float_of_int n)%float = mean xs.
Proof. by intros ->. Qed.

Lemma np_truediv_means (ms : list metric_fn) (vals : metric_fn -> list float) (n : Z) :
  (forall m, n = Z.of_nat (length (vals m))) ->
  np_truediv ((fun m => fsum_from 0 (vals m)) <$> ms) n
  = (fun m => mean (vals m)) <$> ms.
Proof.
  intros Hn. unfold np_truediv. rewrite <- list_fmap_compose.
  apply list_fmap_ext. intros _ m _. cbn [compose]. by apply mean_div.
Qed.

Lemma py_truediv_ok (x : float) (n : Z) self :
  n <> 0 -> py_truediv x n self = Ok (x / float_of_int n)%float self.
Proof. intros Hn. unfold py_truediv. by case_decide. Qed.

Lemma py_truediv_zero (x : float) self :
  py_truediv x 0 self = Err ZeroDivisionError self.
Proof. unfold py_truediv. by case_decide. Qed.

Lemma _valid_epoch_none epoch self :
  valid_data_loader (cfg self) = None ->
  _valid_epoch epoch self = Err TypeError (emits [ModelEval] (set_training false self)).
Proof.
  intros Hv. destruct self as [c p mode cu g o pt pv tr].
  cbn [cfg] in Hv. unfold _valid_epoch.
  do 3 erewrite bind_Ok by reflexivity.
  cbn [cfg emit set_training]. by rewrite Hv.
Qed.

Lemma _valid_epoch_ok epoch self vdl :
  valid_data_loader (cfg self) = Some vdl ->
  batches vdl <> [] ->
  let c := cfg self in
  let y := mean (valid_losses (cfg self) (params self) vdl) in
  exists plt',
    _valid_epoch epoch self
    = Ok ({[ "val_loss"%string := VFloat y;
             "val_metrics"%string :=
               VList ((fun m => mean (valid_metric_values (cfg self) (params self) vdl m)) <$> metrics c) ]})
         (mk c (params self) false (on_cuda self) (grads self) (optimizer self)
             (plt_train_loss self) plt'
             (trace self
              ++ valid_events c epoch (length (batches vdl)) y (plt_val_loss self)))
    /\ (is_Some (plt_val_loss self) \/ visualize c = false -> plt' = plt_val_loss self)
    /\ (visualize c = true -> is_Some plt').
Proof.
  intros Hv Hne c y. subst c y.
  assert (Hlen : len vdl <> 0) by (unfold len; destruct (batches vdl); [done | cbn; lia]).
  unfold _valid_epoch.
  destruct self as [c p mode cu g o pt pv tr].
  set (self := mk c p mode cu g o pt pv tr) in *.
  set (s0 := emits [ModelEval] (set_training false self)).
  erewrite (bind_Ok model_eval _ self tt s0) by reflexivity.
  do 2 erewrite bind_Ok by reflexivity.
  change (cfg s0) with (cfg self). rewrite Hv, np_zeros_fmap.
  pose proof (valid_loop_spec (batches vdl) 0 (0%float) (fun _ => 0%float) s0 eq_refl)
    as Hloop.
  cbv zeta in Hloop. change (cfg s0) with (cfg self) in Hloop.
  change (params s0) with (params self) in Hloop.
  erewrite bind_Ok by exact Hloop. clear Hloop. cbv beta iota.
  set (s1 := emits _ s0).
  erewrite bind_Ok by reflexivity.
  change (cfg s1) with (cfg self).
  assert (Hy : forall s : t,
             py_truediv (fsum_from 0 (batch_loss <$>
                           valid_outputs (cfg self) (params self) (batches vdl)))
               (len vdl) s
             = Ok (mean (valid_losses (cfg self) (params self) vdl)) s).
  { intros s. rewrite py_truediv_ok by done. f_equal. apply mean_div.
    unfold len, valid_losses, valid_outputs. by rewrite !length_fmap. }
  rewrite np_truediv_means
    by (intros m; unfold len, valid_outputs; by rewrite !length_fmap).
  fold (valid_metric_values (cfg self) (params self) vdl).
  unfold valid_events, valid_loop_events, valid_viz_line.
  destruct (visualize (cfg self)) eqn:Hviz;
    [destruct pv as [w|]|]; eexists; (split; [|split]).
  - erewrite (bind_Ok (bind (gets plt_val_loss) _)); cycle 1.
    { erewrite bind_Ok by reflexivity.
      cbn [plt_val_loss emits s1 s0 self set_training].
      erewrite bind_Ok by apply Hy.
      erewrite bind_Ok by reflexivity. reflexivity. }
    erewrite bind_Ok by apply Hy. unfold ret. f_equal.
    subst s1 s0 self. norm_state. by rewrite <- !app_assoc.
  - done.
  - by eexists.
  - erewrite (bind_Ok (bind (gets plt_val_loss) _)); cycle 1.
    { erewrite bind_Ok by reflexivity.
      cbn [plt_val_loss emits s1 s0 self set_training].
      erewrite bind_Ok by apply Hy.
      erewrite bind_Ok by reflexivity. reflexivity. }
    erewrite bind_Ok by apply Hy. unfold ret. f_equal.
    subst s1 s0 self. norm_state. by rewrite <- !app_assoc.
  - intros [[? ?]|?]; done.
  - by eexists.
  - erewrite bind_Ok by reflexivity.
    erewrite bind_Ok by apply Hy. unfold ret. f_equal.
    subst s1 s0 self. norm_state.
    by rewrite <- !app_assoc, app_nil_r.
  - done.
  - done.
Qed.

Lemma _valid_epoch_empty epoch self vdl :
  valid_data_loader (cfg self) = Some vdl ->
  batches vdl = [] ->
  _valid_epoch epoch self
  = Err ZeroDivisionError (emits [ModelEval] (set_training false self)).
Proof.
  intros Hv Hnil.
  assert (Hlen : len vdl = 0) by (unfold len; by rewrite Hnil).
  unfold _valid_epoch.
  set (s0 := emits [ModelEval] (set_training false self)).
  erewrite (bind_Ok model_eval _ self tt s0) by reflexivity.
  do 2 erewrite bind_Ok by reflexivity.
  change (cfg s0) with (cfg self). rewrite Hv, Hnil, Hlen.
  cbn [for_enumerate]. erewrite bind_Ok by reflexivity. cbv beta iota.
  erewrite bind_Ok by reflexivity. change (cfg s0) with (cfg self).
  destruct (visualize (cfg self)).
  - erewrite (bind_Err (bind (gets plt_val_loss) _)); [done|].
    erewrite bind_Ok by reflexivity.
    destruct (plt_val_loss s0); by erewrite bind_Err by apply py_truediv_zero.
  - erewrite bind_Ok by reflexivity.
    by erewrite bind_Err by apply py_truediv_zero.
Qed.

Lemma valid_loop_events_quiet n :
  progress_lines (valid_loop_events n) = []
  /\ chart_points train_legend (valid_loop_events n) = []
  /\ chart_points val_legend (valid_loop_events n) = []
  /\ learning_events (valid_loop_events n) = [].
Proof.
  unfold valid_loop_events.
  induction n as [|n (IH1 & IH2 & IH3 & IH4)]; [done|].
  cbn [replicate mjoin list_join app].
  change (ModelEval :: ModelCall :: LossCall :: mjoin (replicate n [ModelCall; LossCall]))
    with ([ModelEval; ModelCall; LossCall] ++ mjoin (replicate n [ModelCall; LossCall])).
  change (ModelEval :: mjoin (replicate n [ModelCall; LossCall]))
    with ([ModelEval] ++ mjoin (replicate n [ModelCall; LossCall])) in *.
  rewrite progress_lines_app, !chart_points_app, learning_events_app in *.
  cbn in *. done.
Qed.

Lemma valid_events_read c epoch n y plt :
  progress_lines (valid_events c epoch n y plt) = []
  /\ chart_points train_legend (valid_events c epoch n y plt) = []
  /\ learning_events (valid_events c epoch n y plt) = []
  /\ chart_points val_legend (valid_events c epoch n y plt)
     = if visualize c
       then [((if plt is Some _ then Some (epoch - 1) else None), y)] else [].
Proof.
  destruct (valid_loop_events_quiet n) as (H1 & H2 & H3 & H4).
  unfold valid_events.
  rewrite progress_lines_app, !chart_points_app, learning_events_app, H1, H2, H3, H4.
  destruct (visualize c), plt; done.
Qed.

(** Whatever its outcome, a validation epoch leaves configuration,
    parameters, gradients, optimizer and training chart alone, and makes
    no learning call, no progress line and no training-chart point. *)
Lemma _valid_epoch_frame epoch self :
  let s' := final_state (_valid_epoch epoch self) in
  exists new,
    cfg s' = cfg self
    /\ learning s' = learning self
    /\ plt_train_loss s' = plt_train_loss self
    /\ trace s' = trace self ++ new
    /\ progress_lines new = []
    /\ chart_points train_legend new = []
    /\ learning_events new = [].
Proof.
  intros s'. subst s'.
  destruct (valid_data_loader (cfg self)) as [vdl|] eqn:Hv.
  - destruct (decide (batches vdl = [])) as [Hnil|Hne].
    + rewrite (_valid_epoch_empty epoch self vdl Hv Hnil). by exists [ModelEval].
    + destruct (_valid_epoch_ok epoch self vdl Hv Hne) as (plt' & -> & _).
      eexists. cbn [final_state cfg learning params grads optimizer plt_train_loss trace].
      destruct (valid_events_read (cfg self) epoch (length (batches vdl))
                  (mean (valid_losses (cfg self) (params self) vdl))
                  (plt_val_loss self)) as (H1 & H2 & H3 & _).
      done.
  - rewrite (_valid_epoch_none epoch self Hv). by exists [ModelEval].
Qed.
(** *** The training epoch *)

Lemma train_prelude_facts self :
  let s0 := train_prelude self in
  cfg s0 = cfg self
  /\ learning s0 = learning self
  /\ training s0 = true
  /\ plt_train_loss s0 = plt_train_loss self
  /\ plt_val_loss s0 = plt_val_loss self
  /\ exists pre, trace s0 = trace self ++ pre
       /\ progress_lines pre = []
       /\ chart_points train_legend pre = []
       /\ chart_points val_legend pre = [].
Proof.
  unfold train_prelude. destruct (with_cuda (cfg self)).
  - repeat (split; [done|]). exists [ModelTrain; ModelCuda].
    split; [|done]. cbn. by rewrite <- app_assoc.
  - repeat (split; [done|]). by exists [ModelTrain].
Qed.

Lemma _train_epoch_prelude epoch self :
  _train_epoch epoch self
  = (do ms <- gets (fun self => metrics (cfg self));
     do dl <- gets (fun self => data_loader (cfg self));
     do '(total_loss, total_metrics) <-
       for_enumerate (train_batch epoch) 0 (batches dl) (0%float, np_zeros (length ms));
     do mean_loss <- py_truediv total_loss (len dl);
     let mean_metrics := np_truediv total_metrics (len dl) in
     let log : gmap string value :=
       {[ "loss"%string := VFloat mean_loss;
          "metrics"%string := VList mean_metrics ]} in
     do v <- gets (fun self => valid (cfg self));
     if v then
       do val_log <- _valid_epoch epoch;
       ret (dict_merge log val_log)
     else ret log) (train_prelude self).
Proof.
  unfold _train_epoch, train_prelude.
  do 2 erewrite bind_Ok by reflexivity.
  change (cfg (emit ModelTrain (set_training true self))) with (cfg self).
  by destruct (with_cuda (cfg self)).
Qed.
Lemma length_train_outputs c bs : forall st,
  length (train_outputs c st bs) = length bs.
Proof.
  induction bs as [|b bs IH]; intros st; [done|].
  rewrite train_outputs_cons. cbn [length]. by rewrite IH.
Qed.

Lemma length_train_losses self :
  Z.of_nat (length (train_losses self)) = len (data_loader (cfg self)).
Proof. unfold train_losses, len. by rewrite length_fmap, length_train_outputs. Qed.

Lemma length_train_metric_values self m :
  Z.of_nat (length (train_metric_values self m)) = len (data_loader (cfg self)).
Proof. unfold train_metric_values, len. by rewrite length_fmap, length_train_outputs. Qed.

(** The summary of the training part of an epoch. *)
Lemma _train_epoch_spec epoch self :
  cadence_ok (cfg self) ->
  let c := cfg self in
  let dl := data_loader c in
  exists s1 new,
    cfg s1 = c
    /\ learning s1 = train_final c (learning self) (batches dl)
    /\ plt_val_loss s1 = plt_val_loss self
    /\ (is_Some (plt_train_loss self) \/ visualize c = false \/ batches dl = [] ->
        plt_train_loss s1 = plt_train_loss self)
    /\ trace s1 = trace self ++ new
    /\ progress_lines new = expected_progress c epoch 0 (train_losses self)
    /\ chart_points train_legend new
       = (if visualize c
          then expected_train_points c epoch 0
                 (if plt_train_loss self is Some _ then true else false)
                 (train_losses self)
          else [])
    /\ chart_points val_legend new = []
    /\ _train_epoch epoch self
       = if decide (batches dl = []) then Err ZeroDivisionError s1
         else
           let log : gmap string value :=
             {[ "loss"%string := VFloat (mean (train_losses self));
                "metrics"%string :=
                  VList ((fun m => mean (train_metric_values self m)) <$> metrics c) ]} in
           if valid c
           then match _valid_epoch epoch s1 with
                | Ok val_log s2 => Ok (dict_merge log val_log) s2
                | Err e s2 => Err e s2
                end
           else Ok log s1.
Proof.
  intros Hcad c dl.
  destruct (train_prelude_facts self)
    as (Hcfg0 & Hlearn0 & Hmode0 & Hpt0 & Hpv0 & pre & Htr0 & Hpre1 & Hpre2 & Hpre3).
  cbv zeta in *. set (s0 := train_prelude self) in *.
  rewrite _train_epoch_prelude. fold s0.
  do 2 erewrite bind_Ok by reflexivity. rewrite Hcfg0. fold c dl.
  rewrite np_zeros_fmap.
  assert (Hlog : batches dl <> [] -> can_log (cfg s0)).
  { intros Hne. rewrite Hcfg0. destruct Hcad as [?|?]; [by left|right].
    split; [done|]. fold c dl. unfold len. destruct (batches dl); [done|cbn; lia]. }
  assert (Hloop : exists self' new,
    for_enumerate (train_batch epoch) 0 (batches dl)
      (0%float, (fun _ : metric_fn => 0%float) <$> metrics c) s0
    = Ok (fsum_from 0 (train_losses self),
          (fun m => fsum_from 0 (train_metric_values self m)) <$> metrics c)
         self'
    /\ cfg self' = c
    /\ learning self' = train_final c (learning self) (batches dl)
    /\ plt_val_loss self' = plt_val_loss self
    /\ (is_Some (plt_train_loss self) \/ visualize c = false \/ batches dl = [] ->
        plt_train_loss self' = plt_train_loss self)
    /\ trace self' = trace s0 ++ new
    /\ progress_lines new = expected_progress c epoch 0 (train_losses self)
    /\ chart_points train_legend new
       = (if visualize c
          then expected_train_points c epoch 0
                 (if plt_train_loss self is Some _ then true else false)
                 (train_losses self)
          else [])
    /\ chart_points val_legend new = []).
  { unfold train_losses, train_metric_values. fold c dl.
    destruct (decide (batches dl = [])) as [Hnil|Hne].
    - rewrite Hnil. exists s0, []. cbn [for_enumerate train_outputs fmap list_fmap].
      unfold ret. rewrite app_nil_r.
      repeat (split; [done|]). split; [|done]. by destruct (visualize c).
    - destruct (train_loop_spec epoch (batches dl) 0 (0%float) (fun _ => 0%float) s0
                  Hmode0 (Hlog Hne))
        as (self' & new & Hrun & H1 & H2 & H3 & H4 & H5 & H6 & H7 & H8 & H9 & H10 & H11).
      cbv zeta in *. rewrite Hcfg0, Hlearn0, ?Hpt0, ?Hpv0 in *. fold c dl in Hrun.
      exists self', new. unfold c in *. tauto. }
  destruct Hloop as (s1 & new & Hrun & H1 & H2 & H3 & H4 & H5 & H6 & H7 & H8).
  exists s1, (pre ++ new).
  split; [done|]. split; [done|]. split; [done|]. split; [done|].
  split; [by rewrite H5, Htr0, app_assoc|].
  split; [by rewrite progress_lines_app, Hpre1, H6|].
  split; [by rewrite chart_points_app, Hpre2, H7|].
  split; [by rewrite chart_points_app, Hpre3, H8|].
  erewrite bind_Ok by exact Hrun. cbv beta iota.
  case_decide as Hnil.
  - replace (len dl) with 0 by (unfold len; by rewrite Hnil).
    by erewrite bind_Err by apply py_truediv_zero.
  - assert (Hlen : len dl <> 0)
      by (unfold len; destruct (batches dl); [done|cbn; lia]).
    erewrite bind_Ok by (by apply py_truediv_ok). cbv zeta.
    rewrite (mean_div _ (len dl)) by (symmetry; apply length_train_losses).
    rewrite np_truediv_means
      by (intros m; symmetry; apply length_train_metric_values).
    erewrite bind_Ok by reflexivity. rewrite H1.
    destruct (valid c); [|done].
    unfold bind at 1. by destruct (_valid_epoch epoch s1).
Qed.

(** *** Epochs that complete *)

Lemma _valid_epoch_returns epoch self vdl :
  valid_data_loader (cfg self) = Some vdl ->
  batches vdl <> [] ->
  exists s',
    _valid_epoch epoch self = Ok (valid_summary (cfg self) (params self) vdl) s'
    /\ cfg s' = cfg self
    /\ learning s' = learning self
    /\ plt_train_loss s' = plt_train_loss self
    /\ (visualize (cfg self) = true -> is_Some (plt_val_loss s'))
    /\ trace s' = trace self
                  ++ valid_events (cfg self) epoch (length (batches vdl))
                       (mean (valid_losses (cfg self) (params self) vdl))
                       (plt_val_loss self).
Proof.
  intros Hv Hne.
  destruct (_valid_epoch_ok epoch self vdl Hv Hne) as (plt' & Hrun & _ & Hsome).
  eexists. split; [exact Hrun|]. by repeat split.
Qed.

Lemma _train_epoch_returns epoch self :
  ready (cfg self) ->
  let c := cfg self in
  exists s1 s',
    cfg s1 = c
    /\ params s1 = after_training self
    /\ (if valid c
        then forall vdl, valid_data_loader c = Some vdl ->
               _valid_epoch epoch s1 = Ok (valid_summary c (after_training self) vdl) s'
               /\ _train_epoch epoch self
                  = Ok (dict_merge (train_summary self)
                          (valid_summary c (after_training self) vdl)) s'
        else s' = s1 /\ _train_epoch epoch self = Ok (train_summary self) s').
Proof.
  intros (Hcad & Hne & Hvr) c.
  destruct (_train_epoch_spec epoch self Hcad)
    as (s1 & new & Hcfg & Hlearn & _ & _ & _ & _ & _ & _ & Hrun).
  cbv zeta in *. fold c in Hcfg, Hlearn, Hrun, Hvr. rewrite decide_False in Hrun by done.
  fold (train_summary self) in Hrun.
  assert (Hp : params s1 = after_training self).
  { unfold after_training. fold c. rewrite <- Hlearn. done. }
  unfold valid_ready in Hvr. destruct (valid c) eqn:Hvalid.
  - destruct (Hvr eq_refl) as (vdl & Hvdl & Hvne).
    destruct (_valid_epoch_returns epoch s1 vdl) as (s' & Hval & _);
      [by rewrite Hcfg | done |].
    rewrite Hcfg, Hp in Hval.
    exists s1, s'. split; [done|]. split; [done|].
    intros vdl' Hvdl'. assert (vdl' = vdl) as -> by congruence.
    split; [done|]. by rewrite Hrun, Hval.
  - by exists s1, s1.
Qed.
(** *** Reading a summary *)



Lemma valid_summary_val_loss c (p : Params) vdl :
  valid_summary c p vdl !! "val_loss"%string
  = Some (VFloat (mean (valid_losses c p vdl))).
Proof. unfold valid_summary. apply lookup_insert_eq. Qed.

Lemma valid_summary_val_metrics c (p : Params) vdl :
  valid_summary c p vdl !! "val_metrics"%string
  = Some (VList ((fun m => mean (valid_metric_values c p vdl m)) <$> metrics c)).
Proof.
  unfold valid_summary. rewrite lookup_insert_ne by done. apply lookup_singleton_eq.
Qed.

Lemma valid_summary_other c (p : Params) vdl (k : string) :
  k <> "val_loss"%string -> k <> "val_metrics"%string ->
  valid_summary c p vdl !! k = None.
Proof.
  intros H1 H2. unfold valid_summary.
  rewrite lookup_insert_ne by done. by apply lookup_singleton_ne.
Qed.

Lemma train_summary_other self (k : string) :
  k <> "loss"%string -> k <> "metrics"%string ->
  train_summary self !! k = None.
Proof.
  intros H1 H2. unfold train_summary.
  rewrite lookup_insert_ne by done. by apply lookup_singleton_ne.
Qed.

Lemma dict_merge_lookup_r (a b : gmap string value) k v :
  b !! k = Some v -> dict_merge a b !! k = Some v.
Proof. intros Hb. unfold dict_merge. by apply lookup_union_Some_l. Qed.

Lemma dict_merge_lookup_l (a b : gmap string value) k :
  b !! k = None -> dict_merge a b !! k = a !! k.
Proof. intros Hb. unfold dict_merge. by apply lookup_union_r. Qed.



(** C10: when a validation source is configured (and both parts
    complete), the summary the epoch returns is the dict merge of the
    training log with the validation log; the merge checks no collision:
    a key of the validation log carries the validation value in the
    merge, whatever the training log holds under it, and every other key
    keeps the training value. *)
Theorem epoch_summary_is_unchecked_merge epoch self :
  ready (cfg self) ->
  valid (cfg self) = true ->
  (exists vdl s1 s',
      valid_data_loader (cfg self) = Some vdl
      /\ _valid_epoch epoch s1
         = Ok (valid_summary (cfg self) (after_training self) vdl) s'
      /\ _train_epoch epoch self
         = Ok (dict_merge (train_summary self)
                 (valid_summary (cfg self) (after_training self) vdl)) s')
  /\ (forall (log val_log : gmap string value) (k : string) (v_train v_val : value),
        log !! k = Some v_train -> val_log !! k = Some v_val ->
        dict_merge log val_log !! k = Some v_val)
  /\ (forall (log val_log : gmap string value) (k : string),
        val_log !! k = None -> dict_merge log val_log !! k = log !! k).
Proof.
  intros Hready Hvalid. split; [|split].
  - destruct (_train_epoch_returns epoch self Hready) as (s1 & s' & _ & _ & Hrun).
    cbv zeta in Hrun. rewrite Hvalid in Hrun.
    destruct Hready as (_ & _ & Hvr). destruct (Hvr Hvalid) as (vdl & Hvdl & _).
    destruct (Hrun vdl Hvdl) as [Hval Htrain]. by exists vdl, s1, s'.
  - intros log val_log k v_train v_val _ Hv. by apply dict_merge_lookup_r.
  - intros log val_log k Hv. by apply dict_merge_lookup_l.
Qed.

Lemma _train_epoch_empty epoch self :
  batches (data_loader (cfg self)) = [] ->
  _train_epoch epoch self = Err ZeroDivisionError (train_prelude self).
Proof.
  intros Hnil.
  destruct (train_prelude_facts self) as (Hcfg0 & _). cbv zeta in Hcfg0.
  rewrite _train_epoch_prelude.
  do 2 erewrite bind_Ok by reflexivity. rewrite Hcfg0, Hnil.
  cbn [for_enumerate]. erewrite bind_Ok by reflexivity. cbv beta iota.
  replace (len (data_loader (cfg self))) with 0 by (unfold len; by rewrite Hnil).
  by erewrite bind_Err by apply py_truediv_zero.
Qed.

(** C2 (amended): a training source, or a validation source, that yields
    no batch makes the epoch call raise [ZeroDivisionError], from the
    division of the total loss by the batch count; no summary is
    returned.  This holds of [_train_epoch] with an empty training
    source, of [_valid_epoch] with an empty validation source, and of
    [_train_epoch] whose validation source is empty. *)
Theorem empty_source_raises_zero_division epoch self :
  (batches (data_loader (cfg self)) = [] ->
   exists s', _train_epoch epoch self = Err ZeroDivisionError s')
  /\ (forall vdl, valid_data_loader (cfg self) = Some vdl -> batches vdl = [] ->
      (exists s', _valid_epoch epoch self = Err ZeroDivisionError s')
      /\ (cadence_ok (cfg self) -> valid (cfg self) = true ->
          exists s', _train_epoch epoch self = Err ZeroDivisionError s')).
Proof.
  split.
  - intros Hnil. eexists. by apply _train_epoch_empty.
  - intros vdl Hvdl Hnil. split.
    + eexists. by apply _valid_epoch_empty with vdl.
    + intros Hcad Hvalid.
      destruct (_train_epoch_spec epoch self Hcad)
        as (s1 & new & Hcfg & _ & _ & _ & _ & _ & _ & _ & Hrun).
      cbv zeta in Hrun. rewrite Hrun. case_decide; [by eexists|].
      rewrite Hvalid.
      rewrite (_valid_epoch_empty epoch s1 vdl) by (by rewrite ?Hcfg).
      by eexists.
Qed.
(** *** What an epoch leaves on the trace, whatever its outcome *)


Lemma _train_epoch_trace epoch self :
  cadence_ok (cfg self) ->
  let c := cfg self in
  let s' := final_state (_train_epoch epoch self) in
  cfg s' = c
  /\ exists new,
       trace s' = trace self ++ new
       /\ progress_lines new = expected_progress c epoch 0 (train_losses self)
       /\ chart_points train_legend new
          = (if visualize c
             then expected_train_points c epoch 0
                    (if plt_train_loss self is Some _ then true else false)
                    (train_losses self)
             else []).
Proof.
  intros Hcad c s'. subst s'.
  destruct (_train_epoch_spec epoch self Hcad)
    as (s1 & new & Hcfg & _ & _ & _ & Htr & Hprog & Hpts & _ & Hrun).
  cbv zeta in *. fold c in Hcfg, Hprog, Hpts, Hrun. rewrite Hrun.
  assert (Hs1 : cfg s1 = c /\ exists new0, trace s1 = trace self ++ new0
            /\ progress_lines new0 = expected_progress c epoch 0 (train_losses self)
            /\ chart_points train_legend new0
               = (if visualize c
                  then expected_train_points c epoch 0
                         (if plt_train_loss self is Some _ then true else false)
                         (train_losses self)
                  else [])) by (split; [done|]; by exists new).
  case_decide; [done|]. destruct (valid c); [|done].
  destruct (_valid_epoch_frame epoch s1)
    as (new2 & Hcfg2 & _ & _ & Htr2 & Hprog2 & Hpts2 & _).
  cbv zeta in *.
  assert (Hfin : final_state match _valid_epoch epoch s1 with
                             | Ok val_log s2 =>
                                 Ok (dict_merge
                                       {[ "loss"%string := VFloat (mean (train_losses self));
                                          "metrics"%string :=
                                            VList ((fun m => mean (train_metric_values self m))
                                                     <$> metrics c) ]} val_log) s2
                             | Err e s2 => Err e s2
                             end
                 = final_state (_valid_epoch epoch s1))
    by (by destruct (_valid_epoch epoch s1)).
  rewrite Hfin. split; [by rewrite Hcfg2|].
  exists (new ++ new2). split; [by rewrite Htr2, Htr, app_assoc|].
  split; [by rewrite progress_lines_app, Hprog, Hprog2, app_nil_r|].
  by rewrite chart_points_app, Hpts, Hpts2, app_nil_r.
Qed.


(** *** An unusable cadence *)




Lemma viz_calls_app tr1 tr2 : viz_calls (tr1 ++ tr2) = viz_calls tr1 ++ viz_calls tr2.
Proof. apply omap_app. Qed.

Lemma viz_calls_valid_loop n : viz_calls (valid_loop_events n) = [].
Proof.
  unfold valid_loop_events. cbn [viz_calls omap list_omap].
  induction n as [|n IH]; [done|]. cbn [replicate mjoin list_join app]. done.
Qed.

Lemma chart_points_singleton legend (call : viz_line) :
  chart_points legend [VizLine call]
  = if decide (line_legend call = legend) then [(line_X call, line_Y call)] else [].
Proof. unfold chart_points. cbn [omap list_omap]. by case_decide. Qed.

(** C7 (amended): with charts on, a validation epoch that completes
    makes exactly one chart call, on the validation-loss chart, with
    y-coordinate the epoch's mean validation loss.  While the runner
    holds no validation series, that call creates the series and passes
    no x-coordinate and no window; once it holds one, the call appends
    to that window the point with x-coordinate [epoch - 1].  The runner
    holds a series afterwards. *)
Theorem valid_epoch_one_chart_call epoch self vdl :
  visualize (cfg self) = true ->
  valid_data_loader (cfg self) = Some vdl ->
  batches vdl <> [] ->
  let y := mean (valid_losses (cfg self) (params self) vdl) in
  exists log s' new,
    _valid_epoch epoch self = Ok log s'
    /\ log !! "val_loss"%string = Some (VFloat y)
    /\ trace s' = trace self ++ new
    /\ viz_calls new
       = [match plt_val_loss self with
          | None => mk_viz_line y None None None val_legend
          | Some w => mk_viz_line y (Some (epoch - 1)) (Some w)
                        (Some "append"%string) val_legend
          end]
    /\ chart_points val_legend new
       = [(if plt_val_loss self is Some _ then Some (epoch - 1) else None, y)]
    /\ is_Some (plt_val_loss s').
Proof.
  intros Hviz Hvdl Hne y.
  destruct (_valid_epoch_returns epoch self vdl Hvdl Hne)
    as (s' & Hrun & _ & _ & _ & Hsome & Htr).
  fold y in Htr. eexists _, s', _. split; [exact Hrun|].
  split; [apply valid_summary_val_loss|]. split; [exact Htr|].
  unfold valid_events. rewrite Hviz, viz_calls_app, viz_calls_valid_loop.
  destruct (valid_events_read (cfg self) epoch (length (batches vdl)) y (plt_val_loss self))
    as (_ & _ & _ & Hpts).
  unfold valid_events in Hpts. rewrite Hviz in Hpts.
  split; [done|]. split; [exact Hpts|]. by apply Hsome.
Qed.

(** C5: a validation epoch makes no gradient reset, no backward pass
    and no optimizer step, and leaves parameters, gradients and
    optimizer state as they were, whatever its outcome; run twice in a
    row, the second run has the outcome of the first, and when the
    validation source has a batch both runs return one and the same
    summary. *)
Theorem validation_is_inference_only epoch epoch' self :
  (exists new,
      trace (final_state (_valid_epoch epoch self)) = trace self ++ new
      /\ learning_events new = []
      /\ params (final_state (_valid_epoch epoch self)) = params self
      /\ grads (final_state (_valid_epoch epoch self)) = grads self
      /\ optimizer (final_state (_valid_epoch epoch self)) = optimizer self)
  /\ match _valid_epoch epoch self with
     | Ok log s1 => exists s2, _valid_epoch epoch' s1 = Ok log s2
     | Err e s1 => exists s2, _valid_epoch epoch' s1 = Err e s2
     end
  /\ (forall vdl, valid_data_loader (cfg self) = Some vdl -> batches vdl <> [] ->
      exists log s1 s2,
        _valid_epoch epoch self = Ok log s1
        /\ _valid_epoch epoch' s1 = Ok log s2
        /\ is_Some (log !! "val_loss"%string)
        /\ is_Some (log !! "val_metrics"%string)).
Proof.
  assert (Htwice : forall vdl, valid_data_loader (cfg self) = Some vdl ->
            batches vdl <> [] ->
            exists s1 s2,
              _valid_epoch epoch self
              = Ok (valid_summary (cfg self) (params self) vdl) s1
              /\ _valid_epoch epoch' s1
                 = Ok (valid_summary (cfg self) (params self) vdl) s2).
  { intros vdl Hvdl Hne.
    destruct (_valid_epoch_returns epoch self vdl Hvdl Hne)
      as (s1 & Hrun1 & Hcfg1 & Hlearn1 & _).
    assert (Hp1 : params s1 = params self) by (unfold learning in Hlearn1; congruence).
    destruct (_valid_epoch_returns epoch' s1 vdl) as (s2 & Hrun2 & _);
      [by rewrite Hcfg1 | done |].
    rewrite Hcfg1, Hp1 in Hrun2. by exists s1, s2. }
  split; [|split].
  - destruct (_valid_epoch_frame epoch self)
      as (new & _ & Hlearn & _ & Htr & _ & _ & Hev).
    cbv zeta in *. unfold learning in Hlearn. exists new.
    split; [done|]. split; [done|]. repeat split; congruence.
  - destruct (valid_data_loader (cfg self)) as [vdl|] eqn:Hvdl.
    + destruct (decide (batches vdl = [])) as [Hnil|Hne].
      * rewrite (_valid_epoch_empty epoch self vdl Hvdl Hnil).
        eexists. by apply _valid_epoch_empty with vdl.
      * destruct (Htwice vdl eq_refl Hne) as (s1 & s2 & -> & Hrun2). by exists s2.
    + rewrite (_valid_epoch_none epoch self Hvdl).
      eexists. by apply _valid_epoch_none.
  - intros vdl Hvdl Hne.
    destruct (Htwice vdl Hvdl Hne) as (s1 & s2 & Hrun1 & Hrun2).
    eexists _, s1, s2. split; [exact Hrun1|]. split; [exact Hrun2|].
    split; eexists; [apply valid_summary_val_loss | apply valid_summary_val_metrics].
Qed.
(** C9: during a training epoch, batch [i] gets a progress line exactly
    when the verbosity is at least 2 and [i] is a multiple of
    [floor(sqrt(batch_size))], the cadence [__init__] stores as
    [log_step] and no epoch changes; the lines appear in batch order and
    each carries the epoch number, the examples processed so far, the
    total number of examples, the percentage complete and the loss of
    its batch. *)
Theorem progress_line_cadence epoch self :
  1 <= batch_size (cfg self) ->
  log_step (cfg self) = Z.sqrt (batch_size (cfg self)) ->
  let c := cfg self in
  let dl := data_loader c in
  (exists new,
      trace (final_state (_train_epoch epoch self)) = trace self ++ new
      /\ progress_lines new
         = (fun il : Z * float =>
              (progress_template,
               [ArgInt epoch;
                ArgInt (fst il * loader_batch_size dl);
                ArgInt (len dl * loader_batch_size dl);
                ArgFloat (100 * float_of_int (fst il) / float_of_int (len dl))%float;
                ArgFloat (snd il)]))
           <$> filter (fun il => logs_progress c (fst il))
                 (enumerate 0 (train_losses self)))
  /\ (forall i, logs_progress c i
                <-> 2 <= verbosity c /\ exists k, i = k * Z.sqrt (batch_size c))
  /\ cfg (final_state (_train_epoch epoch self)) = c
  /\ (forall base dl0 vdl0 self0,
        __init__ base dl0 vdl0 = inr self0 ->
        log_step (cfg self0) = Z.sqrt (loader_batch_size dl0)
        /\ batch_size (cfg self0) = loader_batch_size dl0).
Proof.
  intros Hbs Hstep c dl.
  assert (Hpos : 1 <= log_step c).
  { unfold c. rewrite Hstep. change 1 with (Z.sqrt 1). by apply Z.sqrt_le_mono. }
  assert (Hcad : cadence_ok c) by (right; lia).
  destruct (_train_epoch_trace epoch self Hcad) as (Hcfg & new & Htr & Hprog & _).
  cbv zeta in *. fold c in Hcfg, Hprog.
  split; [by exists new|]. split.
  { intros i. unfold logs_progress, c. rewrite Hstep. done. }
  split; [done|].
  intros base dl0 vdl0 self0. unfold __init__, int_np_sqrt.
  case_decide; [done|]. intros [= <-]. done.
Qed.

(** *** Reading the whole trace of an epoch *)

(** Any reading [H] of traces that distributes over concatenation can be
    taken batch by batch over the training loop. *)
Lemma train_loop_reading {X} (H : list event -> list X) (g : Z -> float -> list X)
    epoch bs : forall idx (tl : float) (f : metric_fn -> float) self,
  (forall tr1 tr2, H (tr1 ++ tr2) = H tr1 ++ H tr2) ->
  (forall i l plt, H (train_batch_events (cfg self) epoch i l plt) = g i l) ->
  training self = true ->
  can_log (cfg self) ->
  exists acc self' new,
    for_enumerate (train_batch epoch) idx bs (tl, f <$> metrics (cfg self)) self
    = Ok acc self'
    /\ trace self' = trace self ++ new
    /\ H new = mjoin ((fun il => g (fst il) (snd il))
                        <$> enumerate idx (batch_loss <$> train_outputs (cfg self)
                                                            (learning self) bs)).
Proof.
  induction bs as [|b bs IH]; intros idx tl f self Happ Hstep Hmode Hlog.
  - exists (tl, f <$> metrics (cfg self)), self, [].
    split; [done|]. split; [by rewrite app_nil_r|].
    cbn [train_outputs fmap list_fmap enumerate mjoin list_join].
    specialize (Happ [] []). cbn [app] in Happ.
    destruct (H []); [done|]. cbn in Happ. apply (f_equal length) in Happ.
    cbn in Happ. rewrite length_app in Happ. cbn in Happ. lia.
  - destruct (train_batch_eq epoch idx b tl f self Hmode Hlog)
      as (plt1 & Hrun1 & _).
    cbv zeta in Hrun1. rewrite train_outputs_cons.
    set (c := cfg self) in *.
    set (ot := (model_call (params self) true (fst (variables_of c b)),
                snd (variables_of c b))) in *.
    change (fst (fst (learning self))) with (params self). fold ot.
    remember (learn_step c (learning self) b) as st1 eqn:Hst1.
    destruct st1 as [[p1 g1] o1]. cbn [fst snd] in Hrun1.
    set (s1 := mk c p1 true (on_cuda self) g1 o1 plt1 (plt_val_loss self)
                  (trace self ++ train_batch_events c epoch idx (batch_loss ot)
                                   (plt_train_loss self))) in *.
    destruct (IH (idx + 1) (tl + batch_loss ot)%float
                (fun m => (f m + batch_metric m ot)%float) s1 Happ Hstep eq_refl Hlog)
      as (acc & self' & new & Hrun & Htr & Hnew).
    change (cfg s1) with c in *. change (learning s1) with (p1, g1, o1) in *.
    change (trace s1) with (trace self ++ train_batch_events c epoch idx (batch_loss ot)
                                   (plt_train_loss self)) in *.
    exists acc, self',
      (train_batch_events c epoch idx (batch_loss ot) (plt_train_loss self) ++ new).
    split.
    { cbn [for_enumerate]. erewrite bind_Ok by exact Hrun1. exact Hrun. }
    split; [by rewrite Htr, app_assoc|].
    rewrite Happ, Hstep, Hnew. done.
Qed.

Lemma train_prelude_exact self :
  train_prelude self
  = mk (cfg self) (params self) true (with_cuda (cfg self) || on_cuda self)
       (grads self) (optimizer self) (plt_train_loss self) (plt_val_loss self)
       (trace self ++ prelude_events (cfg self)).
Proof.
  unfold train_prelude, prelude_events. destruct self as [c p mode cu g o pt pv tr].
  cbn [cfg]. destruct (with_cuda c); norm_state; [|done].
  by rewrite <- app_assoc.
Qed.

(** The training part of an epoch with a usable cadence and a batch: the
    state [s1] the training loop leaves, any reading of the loop's part of
    the trace, and what is left of the call. *)
Lemma _train_epoch_training epoch self :
  cadence_ok (cfg self) ->
  batches (data_loader (cfg self)) <> [] ->
  let c := cfg self in
  exists s1 new_t,
    cfg s1 = c
    /\ learning s1 = train_final c (learning self) (batches (data_loader c))
    /\ training s1 = true
    /\ on_cuda s1 = (with_cuda c || on_cuda self)
    /\ plt_val_loss s1 = plt_val_loss self
    /\ (is_Some (plt_train_loss self) \/ visualize c = false ->
        plt_train_loss s1 = plt_train_loss self)
    /\ (visualize c = true -> is_Some (plt_train_loss s1))
    /\ trace s1 = trace self ++ prelude_events c ++ new_t
    /\ (forall X (H : list event -> list X) (g : Z -> float -> list X),
          (forall tr1 tr2, H (tr1 ++ tr2) = H tr1 ++ H tr2) ->
          (forall i l plt, H (train_batch_events c epoch i l plt) = g i l) ->
          H new_t = mjoin ((fun il => g (fst il) (snd il))
                             <$> enumerate 0 (train_losses self)))
    /\ _train_epoch epoch self
       = if valid c
         then match _valid_epoch epoch s1 with
              | Ok val_log s2 => Ok (dict_merge (train_summary self) val_log) s2
              | Err e s2 => Err e s2
              end
         else Ok (train_summary self) s1.
Proof.
  intros Hcad Hne c.
  set (dl := data_loader c).
  set (s0 := train_prelude self).
  assert (Hs0 : s0 = mk c (params self) true (with_cuda c || on_cuda self)
                   (grads self) (optimizer self) (plt_train_loss self)
                   (plt_val_loss self) (trace self ++ prelude_events c))
    by apply train_prelude_exact.
  assert (Hcfg0 : cfg s0 = c) by (by rewrite Hs0).
  assert (Hlen : len dl <> 0)
    by (unfold len; fold c dl in Hne; destruct (batches dl); [done|cbn; lia]).
  assert (Hlog : can_log (cfg s0)).
  { rewrite Hcfg0. destruct Hcad as [?|?]; [by left|right]. by split. }
  destruct (train_loop_spec epoch (batches dl) 0 0%float (fun _ => 0%float) s0)
    as (s1 & new & Hrun & H1 & H2 & H3 & H4 & H5 & H6 & H7 & H8 & _);
    [by rewrite Hs0 | done |].
  assert (Hread : forall X (H : list event -> list X) (g : Z -> float -> list X),
            (forall tr1 tr2, H (tr1 ++ tr2) = H tr1 ++ H tr2) ->
            (forall i l plt, H (train_batch_events c epoch i l plt) = g i l) ->
            H new = mjoin ((fun il => g (fst il) (snd il))
                             <$> enumerate 0 (train_losses self))).
  { intros X H g Happ Hstep.
    destruct (train_loop_reading H g epoch (batches dl) 0 0%float (fun _ => 0%float) s0)
      as (acc & s1' & new' & Hrun' & Htr' & Hread);
      [done | by rewrite Hcfg0 | by rewrite Hs0 | done |].
    cbv zeta in Hrun. rewrite Hrun in Hrun'. injection Hrun' as <- <-.
    rewrite H8 in Htr'. apply app_inv_head in Htr'. subst new'.
    rewrite Hread, Hcfg0. unfold train_losses. fold c dl.
    by replace (learning s0) with (learning self) by (by rewrite Hs0). }
  cbv zeta in *. rewrite Hcfg0 in *.
  assert (Hl0 : learning s0 = learning self) by (by rewrite Hs0).
  rewrite Hl0 in *.
  fold (train_losses self) in Hrun.
  assert (Hcall : _train_epoch epoch self
                  = if valid c
                    then match _valid_epoch epoch s1 with
                         | Ok val_log s2 => Ok (dict_merge (train_summary self) val_log) s2
                         | Err e s2 => Err e s2
                         end
                    else Ok (train_summary self) s1).
  { rewrite _train_epoch_prelude. fold s0.
    do 2 erewrite bind_Ok by reflexivity. rewrite Hcfg0. fold dl.
    rewrite np_zeros_fmap.
    erewrite bind_Ok by exact Hrun. cbv beta iota.
    erewrite bind_Ok by (by apply py_truediv_ok). cbv zeta.
    rewrite (mean_div _ (len dl)) by (symmetry; apply length_train_losses).
    fold (train_metric_values self).
    rewrite np_truediv_means
      by (intros m; symmetry; apply length_train_metric_values).
    erewrite bind_Ok by reflexivity. rewrite H1.
    fold (train_summary self).
    destruct (valid c); [|done].
    unfold bind at 1. by destruct (_valid_epoch epoch s1). }
  exists s1, new.
  split; [done|]. split; [done|]. split; [done|].
  split; [by rewrite H4, Hs0|]. split; [by rewrite H5, Hs0|].
  split.
  { intros Hk. rewrite H6; [by rewrite Hs0|]. rewrite Hs0. cbn [plt_train_loss].
    destruct Hk as [?|?]; [by left | right; by left]. }
  split; [intros Hv; by apply H7|].
  split; [rewrite H8, Hs0; cbn [trace]; by rewrite <- app_assoc|].
  split; [exact Hread | exact Hcall].
Qed.

(** A training epoch that can complete, in full: the state [s1] the
    training loop leaves, the state [s'] the call leaves, and any reading
    of the loop's part of the trace. *)
Lemma _train_epoch_done epoch self :
  ready (cfg self) ->
  let c := cfg self in
  exists s1 s' new_t,
    cfg s1 = c
    /\ learning s1 = train_final c (learning self) (batches (data_loader c))
    /\ training s1 = true
    /\ on_cuda s1 = (with_cuda c || on_cuda self)
    /\ plt_val_loss s1 = plt_val_loss self
    /\ (is_Some (plt_train_loss self) \/ visualize c = false ->
        plt_train_loss s1 = plt_train_loss self)
    /\ (visualize c = true -> is_Some (plt_train_loss s1))
    /\ trace s1 = trace self ++ prelude_events c ++ new_t
    /\ (forall X (H : list event -> list X) (g : Z -> float -> list X),
          (forall tr1 tr2, H (tr1 ++ tr2) = H tr1 ++ H tr2) ->
          (forall i l plt, H (train_batch_events c epoch i l plt) = g i l) ->
          H new_t = mjoin ((fun il => g (fst il) (snd il))
                             <$> enumerate 0 (train_losses self)))
    /\ (if valid c
        then exists vdl plt',
               valid_data_loader c = Some vdl
               /\ s' = mk c (after_training self) false (on_cuda s1) (grads s1)
                          (optimizer s1)
                          (plt_train_loss s1) plt'
                          (trace s1
                           ++ valid_events c epoch (length (batches vdl))
                                (mean (valid_losses c (after_training self) vdl))
                                (plt_val_loss self))
               /\ (is_Some (plt_val_loss self) \/ visualize c = false ->
                   plt' = plt_val_loss self)
               /\ (visualize c = true -> is_Some plt')
               /\ _train_epoch epoch self
                  = Ok (dict_merge (train_summary self)
                          (valid_summary c (after_training self) vdl)) s'
        else s' = s1 /\ _train_epoch epoch self = Ok (train_summary self) s1).
Proof.
  intros (Hcad & Hne & Hvr) c.
  destruct (_train_epoch_training epoch self Hcad Hne)
    as (s1 & new & F1 & F2 & F3 & F4 & F5 & F6 & F7 & F8 & F9 & Hcall).
  cbv zeta in *. fold c in F1, F2, F4, F6, F7, F8, F9, Hcall.
  assert (Hp : params s1 = after_training self).
  { unfold after_training. fold c. rewrite <- F2. done. }
  unfold valid_ready in Hvr. fold c in Hvr.
  destruct (valid c) eqn:Hvalid.
  - destruct (Hvr eq_refl) as (vdl & Hvdl & Hvne).
    destruct (_valid_epoch_ok epoch s1 vdl) as (plt' & Hval & Hk1 & Hk2);
      [by rewrite F1 | done |].
    cbv zeta in Hval, Hk1, Hk2. rewrite F1, Hp, F5 in Hval. rewrite ?F1, F5 in Hk1.
    rewrite F1 in Hk2.
    fold (valid_summary c (after_training self) vdl) in Hval.
    exists s1. eexists. exists new. do 9 (split; [assumption|]).
    exists vdl, plt'. split; [done|]. split; [reflexivity|].
    split; [done|]. split; [done|].
    by rewrite Hcall, Hval.
  - exists s1, s1, new. do 9 (split; [assumption|]). done.
Qed.

(** A training epoch that can complete, seen from outside: what it
    returns, the trace it adds and the state it leaves. *)
Lemma _train_epoch_whole epoch self :
  ready (cfg self) ->
  let c := cfg self in
  exists log s' new_t,
    _train_epoch epoch self = Ok log s'
    /\ trace s' = trace self ++ prelude_events c ++ new_t
                  ++ epoch_valid_events c epoch (after_training self) (plt_val_loss self)
    /\ (forall X (H : list event -> list X) (g : Z -> float -> list X),
          (forall tr1 tr2, H (tr1 ++ tr2) = H tr1 ++ H tr2) ->
          (forall i l plt, H (train_batch_events c epoch i l plt) = g i l) ->
          H new_t = mjoin ((fun il => g (fst il) (snd il))
                             <$> enumerate 0 (train_losses self)))
    /\ cfg s' = c
    /\ learning s' = train_final c (learning self) (batches (data_loader c))
    /\ training s' = negb (valid c)
    /\ on_cuda s' = (with_cuda c || on_cuda self)
    /\ (is_Some (plt_train_loss self) \/ visualize c = false ->
        plt_train_loss s' = plt_train_loss self)
    /\ (visualize c = true -> is_Some (plt_train_loss s'))
    /\ (is_Some (plt_val_loss self) \/ visualize c = false \/ valid c = false ->
        plt_val_loss s' = plt_val_loss self)
    /\ (visualize c = true -> valid c = true -> is_Some (plt_val_loss s')).
Proof.
  intros Hready c.
  destruct (_train_epoch_done epoch self Hready)
    as (s1 & s' & new_t & F1 & F2 & F3 & F4 & F5 & F6 & F7 & F8 & F9 & Hend).
  cbv zeta in *. fold c in F1, F2, F4, F6, F7, F8, F9, Hend.
  unfold epoch_valid_events.
  destruct (valid c) eqn:Hvalid.
  - destruct Hend as (vdl & plt' & Hvdl & -> & Hk1 & Hk2 & Hrun). rewrite Hvdl.
    eexists _, _, new_t. split; [exact Hrun|].
    cbn [trace cfg learning params grads optimizer training on_cuda
         plt_train_loss plt_val_loss negb].
    split; [by rewrite F8, <- !app_assoc|]. split; [exact F9|]. split; [done|].
    split.
    { unfold after_training. fold c. rewrite <- F2. reflexivity. }
    split; [done|]. split; [done|]. split; [done|]. split; [done|].
    split; [|by intros ? _; apply Hk2].
    intros [?|[?|?]]; [apply Hk1; by left | apply Hk1; by right | done].
  - destruct Hend as [-> Hrun]. eexists _, s1, new_t. split; [exact Hrun|].
    split; [by rewrite F8, app_nil_r|]. split; [exact F9|].
    do 6 (split; [done|]). split; [done|]. done.
Qed.

(** *** The x-coordinates of the training chart over a run of epochs *)







(** *** What an epoch calls *)

Lemma mode_events_app tr1 tr2 :
  mode_events (tr1 ++ tr2) = mode_events tr1 ++ mode_events tr2.
Proof. apply filter_app. Qed.

Lemma mjoin_const {X} (xs : list X) (ls : list float) : forall idx,
  mjoin ((fun _ : Z * float => xs) <$> enumerate idx ls) = mjoin (replicate (length ls) xs).
Proof.
  induction ls as [|l ls IH]; intros idx; [done|].
  change (mjoin ((fun _ : Z * float => xs) <$> enumerate idx (l :: ls)))
    with (xs ++ mjoin ((fun _ : Z * float => xs) <$> enumerate (idx + 1) ls)).
  change (mjoin (replicate (length (l :: ls)) xs))
    with (xs ++ mjoin (replicate (length ls) xs)).
  by rewrite IH.
Qed.

Lemma mjoin_nil_const {X} (ls : list float) idx :
  mjoin ((fun _ : Z * float => @nil X) <$> enumerate idx ls) = [].
Proof. rewrite mjoin_const. induction (length ls); [done|]. by cbn. Qed.

Lemma mode_events_batch c epoch i l plt :
  mode_events (train_batch_events c epoch i l plt) = [].
Proof.
  unfold train_batch_events. rewrite !mode_events_app.
  case_decide; destruct (visualize c), plt; reflexivity.
Qed.

Lemma viz_calls_batch_off c epoch i l plt :
  visualize c = false -> viz_calls (train_batch_events c epoch i l plt) = [].
Proof.
  intros Hv. unfold train_batch_events. rewrite !viz_calls_app, Hv.
  case_decide; reflexivity.
Qed.

Lemma mode_events_model_loss n :
  mode_events (mjoin (replicate n [ModelCall; LossCall])) = [].
Proof.
  induction n as [|n IH]; [done|].
  change (mjoin (replicate (S n) [ModelCall; LossCall]))
    with ([ModelCall; LossCall] ++ mjoin (replicate n [ModelCall; LossCall])).
  by rewrite mode_events_app, IH.
Qed.

Lemma mode_events_valid_loop n : mode_events (valid_loop_events n) = [ModelEval].
Proof.
  pose proof (mode_events_app [ModelEval] (mjoin (replicate n [ModelCall; LossCall])))
    as Happ.
  rewrite mode_events_model_loss in Happ. exact Happ.
Qed.

Lemma epoch_valid_events_read c epoch (p : Params) plt :
  learning_events (epoch_valid_events c epoch p plt) = []
  /\ progress_lines (epoch_valid_events c epoch p plt) = []
  /\ chart_points train_legend (epoch_valid_events c epoch p plt) = []
  /\ (visualize c = false -> viz_calls (epoch_valid_events c epoch p plt) = [])
  /\ (is_Some (valid_data_loader c) ->
      mode_events (epoch_valid_events c epoch p plt)
      = if valid c then [ModelEval] else []).
Proof.
  unfold epoch_valid_events. destruct (valid c); [|by repeat split].
  destruct (valid_data_loader c) as [vdl|]; [|by repeat split; [..|intros [? [=]]]].
  destruct (valid_events_read c epoch (length (batches vdl))
              (mean (valid_losses c p vdl)) plt) as (H1 & H2 & H3 & _).
  split; [done|]. split; [done|]. split; [done|]. split.
  - intros Hv. unfold valid_events. by rewrite Hv, app_nil_r, viz_calls_valid_loop.
  - intros _. unfold valid_events. rewrite mode_events_app, mode_events_valid_loop.
    by destruct (visualize c).
Qed.

Lemma compute_events_app tr1 tr2 :
  compute_events (tr1 ++ tr2) = compute_events tr1 ++ compute_events tr2.
Proof. apply filter_app. Qed.

Lemma compute_events_batch c epoch i l plt :
  compute_events (train_batch_events c epoch i l plt)
  = [ZeroGrad; ModelCall; LossCall; Backward; OptimizerStep].
Proof.
  unfold train_batch_events. rewrite !compute_events_app.
  case_decide; destruct (visualize c), plt; reflexivity.
Qed.

Lemma compute_events_model_loss n :
  compute_events (mjoin (replicate n [ModelCall; LossCall]))
  = mjoin (replicate n [ModelCall; LossCall]).
Proof.
  induction n as [|n IH]; [done|].
  change (mjoin (replicate (S n) [ModelCall; LossCall]))
    with ([ModelCall; LossCall] ++ mjoin (replicate n [ModelCall; LossCall])).
  by rewrite compute_events_app, IH.
Qed.

Lemma compute_events_valid c epoch n (y : float) plt :
  compute_events (valid_events c epoch n y plt)
  = mjoin (replicate n [ModelCall; LossCall]).
Proof.
  unfold valid_events, valid_loop_events.
  change (ModelEval :: mjoin (replicate n [ModelCall; LossCall]))
    with ([ModelEval] ++ mjoin (replicate n [ModelCall; LossCall])).
  rewrite !compute_events_app, compute_events_model_loss.
  destruct (visualize c); cbn [compute_events filter app]; by rewrite ?app_nil_r.
Qed.

(** X1: the computation of a training epoch that completes.  Every
    training batch, in the order of the source, gets a gradient reset, a
    forward pass, a loss evaluation, a backward pass and one optimizer
    step, in that order; then, when validation is configured, every
    validation batch gets a forward pass and a loss evaluation and nothing
    else.  The parameters, gradients and optimizer state the epoch leaves
    are those the training batches produced. *)
Theorem epoch_compute_calls epoch self :
  ready (cfg self) ->
  let c := cfg self in
  exists log s' new,
    _train_epoch epoch self = Ok log s'
    /\ trace s' = trace self ++ new
    /\ compute_events new
       = mjoin (replicate (length (batches (data_loader c)))
                  [ZeroGrad; ModelCall; LossCall; Backward; OptimizerStep])
         ++ match (if valid c then valid_data_loader c else None) with
            | Some vdl => mjoin (replicate (length (batches vdl)) [ModelCall; LossCall])
            | None => []
            end
    /\ learning s' = train_final c (learning self) (batches (data_loader c)).
Proof.
  intros Hready c.
  destruct (_train_epoch_whole epoch self Hready)
    as (log & s' & new_t & Hrun & Htr & Hread & _ & Hlearn & _).
  cbv zeta in *. fold c in Htr, Hread, Hlearn.
  exists log, s', (prelude_events c ++ new_t
                   ++ epoch_valid_events c epoch (after_training self) (plt_val_loss self)).
  split; [done|]. split; [done|]. split; [|done].
  rewrite !compute_events_app.
  rewrite (Hread _ compute_events
             (fun _ _ => [ZeroGrad; ModelCall; LossCall; Backward; OptimizerStep]))
    by (apply compute_events_app || (intros; apply compute_events_batch)).
  rewrite mjoin_const.
  replace (length (train_losses self)) with (length (batches (data_loader c)))
    by (unfold train_losses; by rewrite length_fmap, length_train_outputs).
  replace (compute_events (prelude_events c)) with (@nil event)
    by (unfold prelude_events; by destruct (with_cuda c)).
  cbn [app]. f_equal.
  unfold epoch_valid_events. destruct (valid c); [|done].
  destruct (valid_data_loader c) as [vdl|]; [|done].
  apply compute_events_valid.
Qed.

(** X2: where the mode calls of a training epoch that completes sit.
    The epoch opens with [model.train()], followed at once by
    [model.cuda()] exactly when the accelerator is configured; then come
    the calls of the training batches, which hold every training
    computation and no mode call; then, exactly when validation is
    configured, [model.eval()] and after it the calls of the validation
    batches, which hold no further mode call.  So the model is left in
    evaluation mode after an epoch with validation and in training mode
    otherwise. *)
Theorem epoch_mode_calls epoch self :
  ready (cfg self) ->
  let c := cfg self in
  exists log s' train_part valid_part,
    _train_epoch epoch self = Ok log s'
    /\ trace s' = trace self
                  ++ ModelTrain :: (if with_cuda c then [ModelCuda] else [])
                  ++ train_part ++ valid_part
    /\ mode_events train_part = []
    /\ compute_events train_part
       = mjoin (replicate (length (batches (data_loader c)))
                  [ZeroGrad; ModelCall; LossCall; Backward; OptimizerStep])
    /\ (if valid c
        then exists vdl rest,
               valid_data_loader c = Some vdl
               /\ valid_part = ModelEval :: rest
               /\ mode_events rest = []
               /\ compute_events rest
                  = mjoin (replicate (length (batches vdl)) [ModelCall; LossCall])
        else valid_part = [])
    /\ training s' = negb (valid c)
    /\ on_cuda s' = (with_cuda c || on_cuda self).
Proof.
  intros Hready c.
  destruct (_train_epoch_whole epoch self Hready)
    as (log & s' & new_t & Hrun & Htr & Hread & _ & _ & Hmode & Hcuda & _).
  cbv zeta in *. fold c in Htr, Hread, Hmode, Hcuda.
  exists log, s', new_t,
    (epoch_valid_events c epoch (after_training self) (plt_val_loss self)).
  split; [done|]. split; [exact Htr|].
  split.
  { rewrite (Hread _ mode_events (fun _ _ => []))
      by (apply mode_events_app || (intros; apply mode_events_batch)).
    apply mjoin_nil_const. }
  split.
  { rewrite (Hread _ compute_events
               (fun _ _ => [ZeroGrad; ModelCall; LossCall; Backward; OptimizerStep]))
      by (apply compute_events_app || (intros; apply compute_events_batch)).
    rewrite mjoin_const. unfold train_losses.
    by rewrite length_fmap, length_train_outputs. }
  split; [|done].
  unfold epoch_valid_events. destruct (valid c) eqn:Hvalid; [|done].
  destruct Hready as (_ & _ & Hvr). destruct (Hvr Hvalid) as (vdl & Hvdl & _).
  fold c in Hvdl. rewrite Hvdl.
  set (y := mean (valid_losses c (after_training self) vdl)).
  exists vdl,
    (mjoin (replicate (length (batches vdl)) [ModelCall; LossCall])
     ++ (if visualize c
         then [VizLine (valid_viz_line epoch y (plt_val_loss self))] else [])).
  split; [done|]. split; [reflexivity|]. split.
  - rewrite mode_events_app, mode_events_model_loss. by destruct (visualize c).
  - rewrite compute_events_app, compute_events_model_loss.
    destruct (visualize c); by rewrite ?app_nil_r.
Qed.

(** *** Chart handles and silent epochs *)

(** X3: the chart series are created once and kept: a training epoch that
    completes never replaces a handle the runner already holds and
    touches no handle when charts are off; with charts on it leaves a
    training-loss handle, and a validation-loss handle when validation is
    configured. *)
Theorem chart_handles_are_kept epoch self :
  ready (cfg self) ->
  let c := cfg self in
  exists log s',
    _train_epoch epoch self = Ok log s'
    /\ (forall w, plt_train_loss self = Some w -> plt_train_loss s' = Some w)
    /\ (forall w, plt_val_loss self = Some w -> plt_val_loss s' = Some w)
    /\ (visualize c = false ->
        plt_train_loss s' = plt_train_loss self
        /\ plt_val_loss s' = plt_val_loss self)
    /\ (visualize c = true ->
        is_Some (plt_train_loss s')
        /\ (valid c = true -> is_Some (plt_val_loss s'))
        /\ (valid c = false -> plt_val_loss s' = plt_val_loss self)).
Proof.
  intros Hready c.
  destruct (_train_epoch_whole epoch self Hready)
    as (log & s' & new_t & Hrun & _ & _ & _ & _ & _ & _ & Ht1 & Ht2 & Hv1 & Hv2).
  cbv zeta in *. fold c in Ht1, Ht2, Hv1, Hv2.
  exists log, s'. split; [done|]. split.
  { intros w Hw. rewrite Ht1; [done|]. left. by rewrite Hw. }
  split.
  { intros w Hw. rewrite Hv1; [done|]. left. by rewrite Hw. }
  split.
  { intros Hoff. split; [apply Ht1 | apply Hv1]; right; [done | by left]. }
  intros Hon. split; [by apply Ht2|]. split; [by apply Hv2|].
  intros Hno. apply Hv1. right. by right.
Qed.

(** X4: with charts off a training epoch that completes makes no chart
    call at all, in training or in validation; with a verbosity below 2
    it emits no progress line. *)
Theorem silent_epoch epoch self :
  ready (cfg self) ->
  let c := cfg self in
  exists log s' new,
    _train_epoch epoch self = Ok log s'
    /\ trace s' = trace self ++ new
    /\ (visualize c = false -> viz_calls new = [])
    /\ (verbosity c < 2 -> progress_lines new = []).
Proof.
  intros Hready c.
  destruct (_train_epoch_whole epoch self Hready)
    as (log & s' & new_t & Hrun & Htr & Hread & _).
  cbv zeta in *. fold c in Htr, Hread.
  exists log, s', (prelude_events c ++ new_t
                   ++ epoch_valid_events c epoch (after_training self) (plt_val_loss self)).
  destruct (epoch_valid_events_read c epoch (after_training self) (plt_val_loss self))
    as (_ & Hvp & _ & Hvv & _).
  split; [done|]. split; [done|]. split.
  - intros Hoff. rewrite !viz_calls_app, (Hvv Hoff), app_nil_r.
    rewrite (Hread _ viz_calls (fun _ _ => []))
      by (apply viz_calls_app || (intros; by apply viz_calls_batch_off)).
    rewrite mjoin_nil_const. unfold prelude_events. by destruct (with_cuda c).
  - intros Hquiet. rewrite !progress_lines_app, Hvp, app_nil_r.
    rewrite (Hread _ progress_lines (fun _ _ => [])).
    + rewrite mjoin_nil_const. unfold prelude_events. by destruct (with_cuda c).
    + apply progress_lines_app.
    + intros i l plt. rewrite progress_lines_batch by (by left).
      rewrite decide_False; [done|]. unfold logs_progress. lia.
Qed.

(** *** Chart points and the contents of the summary *)

Lemma expected_train_points_lookup c epoch : forall losses idx started (i : nat) l,
  losses !! i = Some l ->
  expected_train_points c epoch idx started losses !! i
  = Some (match i, started with
          | O, false => None
          | _, _ => Some (idx + Z.of_nat i + (epoch - 1) * len (data_loader c))
          end, l).
Proof.
  induction losses as [|l0 ls IH]; intros idx started i l Hi; [done|].
  destruct i as [|i]; cbn [expected_train_points lookup list_lookup] in *.
  - injection Hi as <-. destruct started; [|done]. do 3 f_equal. lia.
  - etrans; [exact (IH (idx + 1) true i l Hi)|]. destruct i; do 3 f_equal; lia.
Qed.

Lemma length_expected_train_points c epoch : forall losses idx started,
  length (expected_train_points c epoch idx started losses) = length losses.
Proof.
  induction losses as [|l0 ls IH]; intros idx started; [done|].
  cbn [expected_train_points length]. by rewrite IH.
Qed.

(** X5: with charts on, a training epoch that completes sends the
    training chart one point per batch, in batch order, whose y is the
    loss of the batch; the point of batch [i] carries the x-coordinate
    [i + (epoch - 1) * len], except the very first point of a runner that
    holds no training series yet, which creates the series and carries no
    x. *)
Theorem train_chart_point_per_batch epoch self :
  ready (cfg self) ->
  visualize (cfg self) = true ->
  let c := cfg self in
  exists log s' new,
    _train_epoch epoch self = Ok log s'
    /\ trace s' = trace self ++ new
    /\ length (chart_points train_legend new) = length (batches (data_loader c))
    /\ (forall (i : nat) l, train_losses self !! i = Some l ->
          chart_points train_legend new !! i
          = Some (match i, plt_train_loss self with
                  | O, None => None
                  | _, _ => Some (Z.of_nat i + (epoch - 1) * len (data_loader c))
                  end, l)).
Proof.
  intros Hready Hviz c.
  destruct (_train_epoch_returns epoch self Hready) as (s1 & s' & _ & _ & Hrun).
  assert (Hok : exists log, _train_epoch epoch self = Ok log s').
  { cbv zeta in Hrun. destruct (valid (cfg self)) eqn:Hvalid.
    - destruct Hready as (_ & _ & Hvr). destruct (Hvr Hvalid) as (vdl & Hvdl & _).
      destruct (Hrun vdl Hvdl) as [_ ->]. by eexists.
    - destruct Hrun as [_ ->]. by eexists. }
  destruct Hok as [log Hok].
  destruct (_train_epoch_trace epoch self (proj1 Hready)) as (_ & new & Htr & _ & Hpts).
  cbv zeta in *. rewrite Hok in Htr. cbn [final_state] in Htr.
  rewrite Hviz in Hpts. fold c in Hpts.
  exists log, s', new. split; [done|]. split; [done|]. rewrite Hpts. split.
  - rewrite length_expected_train_points. unfold train_losses.
    by rewrite length_fmap, length_train_outputs.
  - intros i l Hi.
    rewrite (expected_train_points_lookup c epoch _ 0 _ i l Hi).
    destruct i, (plt_train_loss self); done.
Qed.

Lemma dom_train_summary self :
  dom (train_summary self) = ({[ "loss"%string; "metrics"%string ]} : gset string).
Proof. unfold train_summary. by rewrite dom_insert_L, dom_singleton_L. Qed.

Lemma dom_valid_summary c (p : Params) vdl :
  dom (valid_summary c p vdl)
  = ({[ "val_loss"%string; "val_metrics"%string ]} : gset string).
Proof. unfold valid_summary. by rewrite dom_insert_L, dom_singleton_L. Qed.

(** X6: the summary of an epoch that completes has exactly the keys
    [loss] and [metrics] when no validation source is configured, and
    exactly [loss], [metrics], [val_loss] and [val_metrics] when one is;
    the merge changes no training value, and [val_loss] is the mean loss
    over the validation batches computed with the parameters the training
    batches of the same epoch left. *)
Theorem epoch_summary_keys epoch self :
  ready (cfg self) ->
  let c := cfg self in
  exists log s',
    _train_epoch epoch self = Ok log s'
    /\ dom log
       = (if valid c
          then {[ "loss"%string; "metrics"%string;
                  "val_loss"%string; "val_metrics"%string ]}
          else {[ "loss"%string; "metrics"%string ]} : gset string)
    /\ log !! "loss"%string = train_summary self !! "loss"%string
    /\ log !! "metrics"%string = train_summary self !! "metrics"%string
    /\ (valid c = true ->
        exists vdl,
          valid_data_loader c = Some vdl
          /\ log !! "val_loss"%string
             = Some (VFloat (mean (valid_losses c (after_training self) vdl)))).
Proof.
  intros Hready c.
  destruct (_train_epoch_returns epoch self Hready) as (s1 & s' & _ & _ & Hrun).
  cbv zeta in Hrun. fold c in Hrun.
  destruct (valid c) eqn:Hvalid.
  - destruct Hready as (_ & _ & Hvr). destruct (Hvr Hvalid) as (vdl & Hvdl & _).
    destruct (Hrun vdl Hvdl) as [_ ->]. eexists _, s'. split; [done|].
    split.
    { unfold dict_merge. rewrite dom_union_L, dom_train_summary, dom_valid_summary.
      set_solver. }
    split; [by rewrite dict_merge_lookup_l by by apply valid_summary_other|].
    split; [by rewrite dict_merge_lookup_l by by apply valid_summary_other|].
    intros _. exists vdl. split; [done|].
    apply dict_merge_lookup_r, valid_summary_val_loss.
  - destruct Hrun as [_ ->]. exists (train_summary self), s'.
    split; [done|]. split; [apply dom_train_summary|]. done.
Qed.

(** *** Validation without a validation source *)

(** X8: validation switched on with no validation source, a state
    [__init__] never builds since it sets [valid] exactly when a source
    is given.  With a usable cadence, a training batch and collaborators
    that return, the epoch runs every training batch, switches the model
    to evaluation mode and then raises [TypeError], from iterating
    [None]: no summary is returned, and the parameters stay as the
    training batches left them. *)
Theorem missing_validation_source_raises_type_error epoch self :
  cadence_ok (cfg self) ->
  batches (data_loader (cfg self)) <> [] ->
  valid (cfg self) = true ->
  valid_data_loader (cfg self) = None ->
  let c := cfg self in
  (exists s' train_part,
      _train_epoch epoch self = Err TypeError s'
      /\ trace s' = trace self
                    ++ ModelTrain :: (if with_cuda c then [ModelCuda] else [])
                    ++ train_part ++ [ModelEval]
      /\ compute_events train_part
         = mjoin (replicate (length (batches (data_loader c)))
                    [ZeroGrad; ModelCall; LossCall; Backward; OptimizerStep])
      /\ learning s' = train_final c (learning self) (batches (data_loader c))
      /\ training s' = false)
  /\ (forall base dl vdl self0,
        __init__ base dl vdl = inr self0 ->
        (valid (cfg self0) = true <-> is_Some (valid_data_loader (cfg self0)))).
Proof.
  intros Hcad Hne Hvalid Hnone c. subst c. split.
  - destruct (_train_epoch_training epoch self Hcad Hne)
      as (s1 & new_t & F1 & F2 & _ & _ & _ & _ & _ & F8 & F9 & Hcall).
    cbv zeta in *. rewrite Hvalid in Hcall.
    rewrite (_valid_epoch_none epoch s1) in Hcall by (by rewrite F1).
    exists (emits [ModelEval] (set_training false s1)), new_t.
    split; [exact Hcall|]. split.
    { cbn [emits set_training trace]. rewrite F8. unfold prelude_events.
      by rewrite <- !app_assoc. }
    split.
    { rewrite (F9 _ compute_events
                 (fun _ _ => [ZeroGrad; ModelCall; LossCall; Backward; OptimizerStep]))
        by (apply compute_events_app || (intros; apply compute_events_batch)).
      rewrite mjoin_const. unfold train_losses.
      by rewrite length_fmap, length_train_outputs. }
    split; [exact F2 | done].
  - intros base dl vdl self0. unfold __init__. destruct (int_np_sqrt _); [done|].
    intros [= <-]. cbn [cfg valid valid_data_loader].
    destruct vdl; split; try done; try (by intros [? ?]); by eexists.
Qed.

(** *** Metric evaluation, the zero cadence, progress counts, construction *)

(** X9: what [_eval_metrics] hands back for one batch, for metric
    functions that return: one entry per configured metric function, in
    registration order, entry [i] being [0.0 + metric(labels, target)]
    for the [i]-th metric function applied to the arg-max labels of the
    prediction and to the target; the attributes of the runner and the
    trace are left as they were.  With no metric configured the result is
    empty. *)
Theorem eval_metrics_values (output : Output) (target : LongVar) self :
  exists vals,
    _eval_metrics output target self = Ok vals self
    /\ length vals = length (metrics (cfg self))
    /\ (forall (i : nat) (m : metric_fn), metrics (cfg self) !! i = Some m ->
          vals !! i
          = Some (0 + m (argmax_axis1 output) (target_numpy target))%float)
    /\ (metrics (cfg self) = [] -> vals = []).
Proof.
  eexists. split; [apply _eval_metrics_eq|]. split; [by rewrite length_fmap|].
  split.
  - intros i m Hm. by rewrite list_lookup_fmap, Hm.
  - by intros ->.
Qed.

Lemma train_batch_raises_exact epoch idx (b : RawData * RawTarget)
    (acc : float * list float) self :
  training self = true ->
  2 <= verbosity (cfg self) ->
  log_step (cfg self) = 0 ->
  let c := cfg self in
  let st' := learn_step c (learning self) b in
  train_batch epoch idx b acc self
  = Err ZeroDivisionError
      (mk c (fst (fst st')) true (on_cuda self) (snd (fst st')) (snd st')
          (plt_train_loss self) (plt_val_loss self)
          (trace self ++ [ZeroGrad; ModelCall; LossCall; Backward; OptimizerStep])).
Proof.
  intros Hmode Hv Hstep c st'. subst c st'. destruct acc as [tl tm].
  unfold train_batch. erewrite bind_Ok by apply _to_variable_eq.
  unfold learn_step, learning.
  destruct (variables_of (cfg self) b) as [data target] eqn:Hvars.
  destruct self as [c p mode cu g o pt pv tr]. cbn [cfg trace training] in *. subst mode.
  cbn [params grads optimizer on_cuda plt_train_loss plt_val_loss].
  destruct (optimizer_step o p (loss_backward p true data target (zero_grad g)))
    as [o' p'] eqn:Hopt.
  unfold bind, model, loss, backward, optimizer_zero_grad, optimizer_do_step,
    py_mod, gets, modify, ret, raise.
  cbn. rewrite Hopt. rewrite decide_True by done. norm_state.
  rewrite decide_True by done. rewrite <- !app_assoc. done.
Qed.

(** X10: with a zero logging cadence (a batch size of 0) and a verbosity of
    at least 2, an epoch over a non-empty training source raises
    [ZeroDivisionError] at the remainder [batch_idx % log_step] of the
    first batch: after that batch's gradient reset, backward pass and
    optimizer step have been done, and before any progress line or chart
    call. *)
Theorem zero_cadence_raises_after_first_step epoch self b bs :
  2 <= verbosity (cfg self) ->
  log_step (cfg self) = 0 ->
  batches (data_loader (cfg self)) = b :: bs ->
  let c := cfg self in
  exists s' new,
    _train_epoch epoch self = Err ZeroDivisionError s'
    /\ trace s' = trace self ++ new
    /\ learning_events new = [ZeroGrad; Backward; OptimizerStep]
    /\ learning s' = learn_step c (learning self) b
    /\ progress_lines new = []
    /\ viz_calls new = [].
Proof.
  intros Hv Hstep Hbs c. subst c.
  pose proof (train_prelude_exact self) as Hs0.
  rewrite _train_epoch_prelude.
  do 2 erewrite bind_Ok by reflexivity.
  replace (cfg (train_prelude self)) with (cfg self) by (by rewrite Hs0).
  rewrite Hbs. cbn [for_enumerate].
  pose proof (train_batch_raises_exact epoch 0 b
                (0%float, np_zeros (length (metrics (cfg self)))) (train_prelude self)) as Hrun.
  rewrite Hs0 in Hrun at 1 2 3. cbn [training cfg] in Hrun.
  specialize (Hrun eq_refl Hv Hstep). cbv zeta in Hrun.
  eexists _, (prelude_events (cfg self) ++ [ZeroGrad; ModelCall; LossCall; Backward; OptimizerStep]).
  split.
  { erewrite bind_Err; [done|]. erewrite bind_Err; [done|]. exact Hrun. }
  rewrite Hs0. cbn [trace learning params grads optimizer cfg on_cuda
                     plt_train_loss plt_val_loss].
  split; [by rewrite <- app_assoc|].
  split; [unfold prelude_events; by destruct (with_cuda (cfg self))|].
  split.
  { unfold learning. cbn [params grads optimizer].
    by destruct (learn_step (cfg self) (params self, grads self, optimizer self) b)
      as [[? ?] ?]. }
  split; unfold prelude_events; by destruct (with_cuda (cfg self)).
Qed.

Lemma enumerate_bounds {A} (xs : list A) : forall idx (il : Z * A),
  il ∈ enumerate idx xs -> idx <= fst il < idx + Z.of_nat (length xs).
Proof.
  induction xs as [|x xs IH]; intros idx il Hin; cbn [enumerate] in Hin.
  - by apply elem_of_nil in Hin.
  - apply elem_of_cons in Hin as [->|Hin]; cbn [fst length].
    + lia.
    + apply IH in Hin. lia.
Qed.

Lemma percent_below_100 (i L : Z) :
  0 <= i < L ->
  (Qc_of_Z 100 * Qc_of_Z i / Qc_of_Z L < Qc_of_Z 100)%Qc.
Proof.
  intros Hi. apply Qclt_nge. intros Hle.
  assert (HL : (Qc_of_Z 0 < Qc_of_Z L)%Qc) by (apply (proj1 (Z2Qc_inj_lt 0 L)); lia).
  rewrite Z2Qc_inj_0 in HL.
  apply (Qcmult_le_compat_r _ _ (Qc_of_Z L)) in Hle; [|by apply Qclt_le_weak].
  rewrite test_field in Hle by (intros Heq; rewrite Heq in HL; by apply Qclt_not_eq in HL).
  rewrite <- !Z2Qc_inj_mul in Hle. apply (proj2 (Z2Qc_inj_le _ _)) in Hle. lia.
Qed.

(** X11: every progress line of an epoch reports the number of examples
    processed before its batch: for a batch size of at least 1 the count
    is [i * batch_size] for a batch index [0 <= i < len], hence always
    below the total [len * batch_size], and the percentage passed to the
    template is the double [100.0 * i / len], whose exact counterpart
    [100 * i / len] is below 100; no line, not even that of the last
    batch, counts the epoch as complete. *)
Theorem progress_counts_examples_before_batch epoch self :
  cadence_ok (cfg self) ->
  1 <= loader_batch_size (data_loader (cfg self)) ->
  let c := cfg self in
  let dl := data_loader c in
  exists new,
    trace (final_state (_train_epoch epoch self)) = trace self ++ new
    /\ Forall (fun line =>
                 exists i l,
                   line = (progress_template,
                           [ArgInt epoch;
                            ArgInt (i * loader_batch_size dl);
                            ArgInt (len dl * loader_batch_size dl);
                            ArgFloat (100 * float_of_int i / float_of_int (len dl))%float;
                            ArgFloat l])
                   /\ 0 <= i < len dl
                   /\ 0 <= i * loader_batch_size dl < len dl * loader_batch_size dl
                   /\ (Qc_of_Z 100 * Qc_of_Z i / Qc_of_Z (len dl) < Qc_of_Z 100)%Qc)
         (progress_lines new).
Proof.
  intros Hcad Hbs c dl.
  destruct (_train_epoch_trace epoch self Hcad) as (_ & new & Htr & Hprog & _).
  cbv zeta in *. fold c in Hprog. exists new. split; [done|].
  rewrite Hprog. unfold expected_progress.
  apply Forall_fmap, Forall_forall. intros [i l] Hin.
  apply list_elem_of_filter in Hin as [_ Hin].
  apply enumerate_bounds in Hin. cbn [fst snd] in *.
  rewrite length_train_losses in Hin. subst dl c.
  exists i, l. split; [reflexivity|].
  generalize dependent (len (data_loader (cfg self))).
  generalize dependent (loader_batch_size (data_loader (cfg self))).
  intros n Hn L HL. split; [lia|]. split; [nia|]. apply percent_below_100. lia.
Qed.

(** X12: [__init__] on batch sizes where the double square root is
    exact.  A negative batch size (down to [-2^63]) makes it fail with
    [ValueError]; a batch size from 0 to below [2^52] builds a runner
    that stores the sources and the batch size, whose [log_step] is the
    integer square root of the batch size (between 1 and the batch size
    when that is at least 1), whose [valid] flag says whether a
    validation source was given, and which holds no chart series yet. *)
Theorem init_outcome base dl vdl :
  (- 2 ^ 63 <= loader_batch_size dl < 0 -> __init__ base dl vdl = inl ValueError)
  /\ (0 <= loader_batch_size dl < 2 ^ 52 ->
      exists self,
        __init__ base dl vdl = inr self
        /\ data_loader (cfg self) = dl
        /\ valid_data_loader (cfg self) = vdl
        /\ batch_size (cfg self) = loader_batch_size dl
        /\ log_step (cfg self) * log_step (cfg self) <= loader_batch_size dl
           < (log_step (cfg self) + 1) * (log_step (cfg self) + 1)
        /\ (1 <= loader_batch_size dl ->
            1 <= log_step (cfg self) <= loader_batch_size dl)
        /\ (valid (cfg self) = true <-> is_Some vdl)
        /\ plt_train_loss self = None
        /\ plt_val_loss self = None
        /\ trace self = []).
Proof.
  unfold __init__, int_np_sqrt. split.
  - intros [_ Hneg]. by rewrite decide_True.
  - intros [Hpos _]. rewrite decide_False by lia. eexists. split; [reflexivity|].
    cbn [cfg data_loader valid_data_loader batch_size log_step valid
         plt_train_loss plt_val_loss trace].
    split; [done|]. split; [done|]. split; [done|].
    split.
    { pose proof (Z.sqrt_spec (loader_batch_size dl) Hpos) as Hs.
      unfold Z.succ in Hs. lia. }
    split.
    { intros H1. split.
      - change 1 with (Z.sqrt 1). by apply Z.sqrt_le_mono.
      - apply Z.sqrt_le_lin. lia. }
    split; [|done].
    destruct vdl; split; try done; try (by intros [? ?]); by eexists.
Qed.

End TrainerFacts.

(** ** The properties on the concrete trainer *)

Section OnTheConcreteLogger.
Import BaseLogger.

Lemma add_entry_appends_densely_witness :
  reachable (@__init__ nat)
  /\ exists self' : BaseLogger.t nat,
       add_entry 7%nat __init__ = Ok tt self'
       /\ entries self' !! 1 = Some 7%nat
       /\ size (entries self') = 1%nat.
Proof.
  split; [apply reach_init|].
  destruct (proj1 (@add_entry_appends_densely nat) __init__ 7%nat reach_init)
    as (self' & Hrun & _ & Hkey & Hsize & _).
  exists self'. split; [exact Hrun|]. split; [exact Hkey | exact Hsize].
Defined.

End OnTheConcreteLogger.

Section OnTheConcreteTrainer.
Import Trainer Scenario.

Lemma ready_plain : ready (cfg plain).
Proof.
  split; [right; by vm_compute|]. split; [done|]. intros Hv. discriminate Hv.
Defined.

Lemma ready_full : ready (cfg full).
Proof.
  split; [right; by vm_compute|]. split; [done|]. intros _.
  exists two_batches. split; [reflexivity | done].
Defined.






Lemma epoch_summary_is_unchecked_merge_witness :
  ready (cfg full) /\ valid (cfg full) = true
  /\ exists vdl s1 s',
       valid_data_loader (cfg full) = Some vdl
       /\ _valid_epoch 1 s1 = Ok (valid_summary (cfg full) (after_training full) vdl) s'
       /\ _train_epoch 1 full
          = Ok (dict_merge (train_summary full)
                  (valid_summary (cfg full) (after_training full) vdl)) s'.
Proof.
  split; [exact ready_full|]. split; [reflexivity|].
  exact (proj1 (epoch_summary_is_unchecked_merge 1 full ready_full eq_refl)).
Defined.

Lemma empty_source_raises_zero_division_witness :
  batches (data_loader (cfg empty_train)) = []
  /\ (exists s', _train_epoch 1 empty_train = Err ZeroDivisionError s')
  /\ valid_data_loader (cfg empty_valid) = Some no_batches
  /\ batches no_batches = []
  /\ (exists s', _valid_epoch 1 empty_valid = Err ZeroDivisionError s').
Proof.
  split; [reflexivity|]. split.
  { exact (proj1 (empty_source_raises_zero_division 1 empty_train) eq_refl). }
  split; [reflexivity|]. split; [reflexivity|].
  exact (proj1 (proj2 (empty_source_raises_zero_division 1 empty_valid)
                  no_batches eq_refl eq_refl)).
Defined.

(** C2, as stated, fails: with an empty training source, and with an
    empty validation source, the call raises [ZeroDivisionError], which
    is not [EmptyDataSourceError]. *)
Lemma empty_source_is_not_empty_data_source_error :
  batches (data_loader (cfg empty_train)) = []
  /\ (exists s', _train_epoch 1 empty_train = Err ZeroDivisionError s')
  /\ (forall s', _train_epoch 1 empty_train <> Err EmptyDataSourceError s')
  /\ valid_data_loader (cfg empty_valid) = Some no_batches
  /\ (exists s', _valid_epoch 1 empty_valid = Err ZeroDivisionError s')
  /\ (forall s', _valid_epoch 1 empty_valid <> Err EmptyDataSourceError s').
Proof.
  assert (H1 : _train_epoch 1 empty_train
               = Err ZeroDivisionError (train_prelude empty_train))
    by (by apply _train_epoch_empty).
  assert (H2 : _valid_epoch 1 empty_valid
               = Err ZeroDivisionError (emits [ModelEval] (set_training false empty_valid)))
    by (by apply _valid_epoch_empty with no_batches).
  split; [reflexivity|]. split; [by eexists|].
  split; [intros s'; rewrite H1; discriminate|].
  split; [reflexivity|]. split; [by eexists|].
  intros s'. rewrite H2. discriminate.
Qed.

Lemma validation_is_inference_only_witness :
  valid_data_loader (cfg full) = Some two_batches
  /\ batches two_batches <> []
  /\ exists log s1 s2,
       _valid_epoch 1 full = Ok log s1
       /\ _valid_epoch 1 s1 = Ok log s2
       /\ is_Some (log !! "val_loss"%string)
       /\ is_Some (log !! "val_metrics"%string).
Proof.
  split; [reflexivity|]. split; [done|].
  refine (proj2 (proj2 (validation_is_inference_only 1 1 full)) two_batches eq_refl _).
  done.
Defined.



Lemma valid_epoch_one_chart_call_witness :
  visualize (cfg full) = true
  /\ valid_data_loader (cfg full) = Some two_batches
  /\ batches two_batches <> []
  /\ exists log s' new,
       _valid_epoch 3 full = Ok log s'
       /\ trace s' = trace full ++ new
       /\ viz_calls new
          = [mk_viz_line (mean (valid_losses (cfg full) (params full) two_batches))
               None None None val_legend]
       /\ is_Some (plt_val_loss s').
Proof.
  split; [reflexivity|]. split; [reflexivity|]. split; [done|].
  destruct (valid_epoch_one_chart_call 3 full two_batches eq_refl eq_refl)
    as (log & s' & new & Hrun & _ & Htr & Hcalls & _ & Hplt); [done|].
  exists log, s', new. by repeat split.
Defined.

(** C7, as stated, fails on the first validation epoch of a runner:
    called with epoch 3 while no validation series exists, the one point
    sent to the validation chart carries no x-coordinate, not
    [3 - 1]. *)
Lemma first_validation_point_carries_no_x :
  visualize (cfg full) = true
  /\ plt_val_loss full = None
  /\ fst <$> chart_points val_legend (trace (final_state (_valid_epoch 3 full)))
     = [None]
  /\ fst <$> chart_points val_legend (trace (final_state (_valid_epoch 3 full)))
     <> [Some (3 - 1)].
Proof.
  split; [reflexivity|]. split; [reflexivity|].
  assert (H : fst <$> chart_points val_legend
                        (trace (final_state (_valid_epoch 3 full))) = [None])
    by (vm_compute; reflexivity).
  split; [exact H|]. rewrite H. discriminate.
Qed.

Lemma progress_line_cadence_witness :
  1 <= batch_size (cfg plain)
  /\ log_step (cfg plain) = Z.sqrt (batch_size (cfg plain))
  /\ exists new,
       trace (final_state (_train_epoch 1 plain)) = trace plain ++ new
       /\ progress_lines new
          = expected_progress (cfg plain) 1 0 (train_losses plain).
Proof.
  split; [by vm_compute|]. split; [reflexivity|].
  refine (proj1 (progress_line_cadence 1 plain _ eq_refl)). by vm_compute.
Defined.

(** The model run on the concrete trainers. *)

Definition examples_seen (line : string * list fmt_arg) : option Z :=
  match line with
  | (_, [_; ArgInt n; _; _; _]) => Some n
  | _ => None
  end.

(** Batch size 4, so cadence 2: of batches 0, 1, 2 the first and the
    third are logged, after 0 and 8 examples. *)
Example plain_progress_lines :
  omap examples_seen (progress_lines (trace (final_state (_train_epoch 1 plain))))
  = [0; 8].
Proof. by vm_compute. Qed.

(** Three epochs of three batches: the first point creates the series,
    the eight others are appended at 1 .. 8. *)
Example full_train_chart_xs :
  fst <$> chart_points train_legend (trace (final_state (run_epochs [1; 2; 3] full)))
  = [None; Some 1; Some 2; Some 3; Some 4; Some 5; Some 6; Some 7; Some 8].
Proof. by vm_compute. Qed.

Example full_val_chart_xs :
  fst <$> chart_points val_legend (trace (final_state (run_epochs [1; 2; 3] full)))
  = [None; Some 1; Some 2].
Proof. by vm_compute. Qed.

(** Rounding is that of the code: three values 0.1 (the double
    [0x1.999999999999ap-4]) have the mean [0x1.999999999999bp-4],
    printed [0.10000000000000002]. *)
Example mean_of_three_tenths :
  mean [0x1.999999999999ap-4; 0x1.999999999999ap-4; 0x1.999999999999ap-4]%float
  = 0x1.999999999999bp-4%float.
Proof. by vm_compute. Qed.

Example init_plain : __init__ (base [] 2 true) three_batches None = inr plain.
Proof. reflexivity. Qed.

Example init_negative_batch_size :
  __init__ (base [] 2 true) (mk_loader (-1) []) None = inl ValueError.
Proof. reflexivity. Qed.

Lemma ready_quiet : ready (cfg quiet).
Proof.
  split; [left; by vm_compute|]. split; [done|]. intros _.
  exists two_batches. split; [reflexivity | done].
Defined.

Lemma epoch_compute_calls_witness :
  ready (cfg full)
  /\ exists log s' new,
       _train_epoch 1 full = Ok log s'
       /\ trace s' = trace full ++ new
       /\ compute_events new
          = [ZeroGrad; ModelCall; LossCall; Backward; OptimizerStep;
             ZeroGrad; ModelCall; LossCall; Backward; OptimizerStep;
             ZeroGrad; ModelCall; LossCall; Backward; OptimizerStep;
             ModelCall; LossCall; ModelCall; LossCall]
       /\ learning s' = (3, 1, 3%nat).
Proof.
  split; [exact ready_full|].
  destruct (epoch_compute_calls 1 full ready_full)
    as (log & s' & new & Hrun & Htr & Hcalls & Hlearn).
  exists log, s', new. split; [exact Hrun|]. split; [exact Htr|].
  split; [exact Hcalls | exact Hlearn].
Defined.

Lemma epoch_mode_calls_witness :
  ready (cfg full)
  /\ exists log s' train_part rest,
       _train_epoch 1 full = Ok log s'
       /\ trace s' = trace full ++ ModelTrain :: train_part ++ ModelEval :: rest
       /\ mode_events train_part = []
       /\ mode_events rest = []
       /\ training s' = false.
Proof.
  split; [exact ready_full|].
  destruct (epoch_mode_calls 1 full ready_full)
    as (log & s' & train_part & valid_part & Hrun & Htr & Htrain & _ & Hvalid & Hmode & _).
  destruct Hvalid as (vdl & rest & _ & Hpart & Hrest & _).
  exists log, s', train_part, rest. split; [exact Hrun|].
  split; [rewrite <- Hpart; exact Htr|]. split; [exact Htrain|].
  split; [exact Hrest | exact Hmode].
Defined.

Lemma chart_handles_are_kept_witness :
  ready (cfg full)
  /\ exists log s',
       _train_epoch 1 full = Ok log s'
       /\ is_Some (plt_train_loss s')
       /\ is_Some (plt_val_loss s').
Proof.
  split; [exact ready_full|].
  destruct (chart_handles_are_kept 1 full ready_full)
    as (log & s' & Hrun & _ & _ & _ & Hon).
  destruct (Hon eq_refl) as (Htrain & Hval & _).
  exists log, s'. split; [exact Hrun|]. split; [exact Htrain | exact (Hval eq_refl)].
Defined.

Lemma silent_epoch_witness :
  ready (cfg quiet)
  /\ exists log s' new,
       _train_epoch 1 quiet = Ok log s'
       /\ trace s' = trace quiet ++ new
       /\ viz_calls new = []
       /\ progress_lines new = [].
Proof.
  split; [exact ready_quiet|].
  destruct (silent_epoch 1 quiet ready_quiet)
    as (log & s' & new & Hrun & Htr & Hviz & Hlines).
  exists log, s', new. split; [exact Hrun|]. split; [exact Htr|].
  split; [exact (Hviz eq_refl) | apply Hlines; by vm_compute].
Defined.

Lemma train_chart_point_per_batch_witness :
  ready (cfg plain) /\ visualize (cfg plain) = true
  /\ exists log s' new,
       _train_epoch 2 plain = Ok log s'
       /\ trace s' = trace plain ++ new
       /\ length (chart_points train_legend new) = 3%nat
       /\ chart_points train_legend new !! 0%nat = Some (None, 1%float)
       /\ chart_points train_legend new !! 2%nat = Some (Some 5, 3%float).
Proof.
  split; [exact ready_plain|]. split; [reflexivity|].
  destruct (train_chart_point_per_batch 2 plain ready_plain eq_refl)
    as (log & s' & new & Hrun & Htr & Hlen & Hpts).
  exists log, s', new. split; [exact Hrun|]. split; [exact Htr|].
  split; [exact Hlen|].
  split; [exact (Hpts 0%nat (1%float) eq_refl)
         | exact (Hpts 2%nat (3%float) eq_refl)].
Defined.

Lemma epoch_summary_keys_witness :
  ready (cfg full)
  /\ exists log s',
       _train_epoch 1 full = Ok log s'
       /\ dom log = ({[ "loss"%string; "metrics"%string;
                        "val_loss"%string; "val_metrics"%string ]} : gset string).
Proof.
  split; [exact ready_full|].
  destruct (epoch_summary_keys 1 full ready_full) as (log & s' & Hrun & Hdom & _).
  exists log, s'. split; [exact Hrun | exact Hdom].
Defined.

Lemma missing_validation_source_raises_type_error_witness :
  cadence_ok (cfg orphan)
  /\ batches (data_loader (cfg orphan)) <> []
  /\ valid (cfg orphan) = true
  /\ valid_data_loader (cfg orphan) = None
  /\ exists s' train_part,
       _train_epoch 1 orphan = Err TypeError s'
       /\ trace s' = trace orphan ++ ModelTrain :: train_part ++ [ModelEval]
       /\ learning s' = (3, 1, 3%nat)
       /\ training s' = false.
Proof.
  assert (Hcad : cadence_ok (cfg orphan)) by (left; by vm_compute).
  assert (Hne : batches (data_loader (cfg orphan)) <> []) by done.
  split; [exact Hcad|]. split; [exact Hne|]. split; [reflexivity|].
  split; [reflexivity|].
  destruct (proj1 (missing_validation_source_raises_type_error 1 orphan
                     Hcad Hne eq_refl eq_refl))
    as (s' & train_part & Hrun & Htr & _ & Hlearn & Hmode).
  exists s', train_part. split; [exact Hrun|]. split; [exact Htr|].
  split; [exact Hlearn | exact Hmode].
Defined.

Lemma zero_cadence_raises_after_first_step_witness :
  2 <= verbosity (cfg stalled)
  /\ log_step (cfg stalled) = 0
  /\ batches (data_loader (cfg stalled)) = [(1, 0)]
  /\ exists s' new,
       _train_epoch 1 stalled = Err ZeroDivisionError s'
       /\ trace s' = trace stalled ++ new
       /\ learning_events new = [ZeroGrad; Backward; OptimizerStep]
       /\ learning s' = (1, 1, 1%nat)
       /\ progress_lines new = []
       /\ viz_calls new = [].
Proof.
  assert (Hv : 2 <= verbosity (cfg stalled)) by (by vm_compute).
  split; [exact Hv|]. split; [reflexivity|]. split; [reflexivity|].
  exact (zero_cadence_raises_after_first_step 1 stalled (1, 0) [] Hv eq_refl eq_refl).
Defined.

Lemma progress_counts_examples_before_batch_witness :
  cadence_ok (cfg plain)
  /\ 1 <= loader_batch_size (data_loader (cfg plain))
  /\ exists new,
       trace (final_state (_train_epoch 1 plain)) = trace plain ++ new
       /\ Forall (fun line =>
                    exists i l,
                      line = (progress_template,
                              [ArgInt 1; ArgInt (i * 4); ArgInt 12;
                               ArgFloat (100 * float_of_int i / float_of_int 3)%float;
                               ArgFloat l])
                      /\ 0 <= i < 3
                      /\ 0 <= i * 4 < 12
                      /\ (Qc_of_Z 100 * Qc_of_Z i / Qc_of_Z 3 < Qc_of_Z 100)%Qc)
            (progress_lines new).
Proof.
  assert (Hcad : cadence_ok (cfg plain)) by (right; by vm_compute).
  assert (Hbs : 1 <= loader_batch_size (data_loader (cfg plain))) by (by vm_compute).
  split; [exact Hcad|]. split; [exact Hbs|].
  exact (progress_counts_examples_before_batch 1 plain Hcad Hbs).
Defined.

End OnTheConcreteTrainer.
